(** * stata_to_df: configuration validation and data loading

    A shallow embedding of the three modules of the package
    ([exceptions.py], [config.py], [__init__.py]) together with the
    properties of the validation rules and of the data-loading contract.

    Python values are modelled by the JSON-like universe [value]; Python
    sets of names by [gset string], their iteration order and the [repr]
    of text being parameters of the interpreter ([Py.SetOrder],
    [Py.Repr]); the pydantic schema machinery by the
    functions of module [Pydantic]; the external Stata session by a record
    of responses ([pystata]) driven through a small state-and-exception
    monad that records every call made to the session and every record
    handed to the logger. What the code prints on standard output is not
    part of the model. *)

From Stdlib Require Import Ascii String DecimalString.
From stdpp Require Import gmap strings list fin_maps.

#[local] Set Warnings "-register-all,-clear-no-such-hyp".

(* ===================================================================== *)
(** ** Python text: [str], [repr] and [join] *)
(* ===================================================================== *)

Module Py.

(** The characters that cannot be written inside a literal. *)
Definition newline : ascii := "010"%char.
Definition dquote : ascii := "034"%char.
Definition squote : ascii := "039"%char.
Definition backslash : ascii := "092"%char.

Definition nl : string := String newline "".

(** [sep.join(parts)] *)
Fixpoint join (sep : string) (parts : list string) : string :=
  match parts with
  | [] => ""
  | [p] => p
  | p :: rest => p +:+ sep +:+ join sep rest
  end.

(** [repr(n)] for a non-negative [int]. *)
Definition repr_nat (n : nat) : string :=
  NilZero.string_of_uint (Nat.to_uint n).

(** [c in s] for a character. *)
Fixpoint contains_char (c : ascii) (s : string) : bool :=
  match s with
  | "" => false
  | String a s' => if decide (a = c) then true else contains_char c s'
  end.

Definition hex_digit (n : N) : ascii :=
  match n with
  | 0 => "0" | 1 => "1" | 2 => "2" | 3 => "3" | 4 => "4" | 5 => "5"
  | 6 => "6" | 7 => "7" | 8 => "8" | 9 => "9" | 10 => "a" | 11 => "b"
  | 12 => "c" | 13 => "d" | 14 => "e" | _ => "f"
  end%N%char.

(** One character of [repr(s)] for ASCII text, for the quote character
    [q] in use: the escapes of the backslash, of the quote and of the
    control characters. A character from 128 up has no entry: whether
    Python escapes it depends on the Unicode tables. *)
Definition repr_char (q c : ascii) : option string :=
  let n := N_of_ascii c in
  if decide (c = backslash) then Some (String backslash (String backslash ""))
  else if decide (c = q) then Some (String backslash (String q ""))
  else if decide (c = "010"%char) then Some (String backslash "n")
  else if decide (c = "013"%char) then Some (String backslash "r")
  else if decide (c = "009"%char) then Some (String backslash "t")
  else if decide (n < 32 ∨ n = 127)%N
  then Some (String backslash
               (String "x" (String (hex_digit (n / 16)) (String (hex_digit (n mod 16)) ""))))
  else if decide (n < 127)%N then Some (String c "")
  else None.

Fixpoint repr_body (q : ascii) (s : string) : option string :=
  match s with
  | "" => Some ""
  | String c s' =>
      r ← repr_char q c;
      rest ← repr_body q s';
      Some (r +:+ rest)
  end.

(** [repr(s)] for a [str] of ASCII characters: single quotes, unless the
    text holds a single quote and no double quote. *)
Definition repr_ascii (s : string) : option string :=
  let q := if contains_char squote s && negb (contains_char dquote s)
           then dquote else squote in
  body ← repr_body q s;
  Some (String q body +:+ String q "").

(** Python's [repr] of a [str]. On ASCII text it is [repr_ascii]; on any
    other text it is whatever the interpreter prints, and nothing is
    assumed about it. *)
Class Repr := {
  repr_str : string → string;
  repr_str_ascii : ∀ s r, repr_ascii s = Some r → repr_str s = r
}.

Section Reprs.
Context `{!Repr}.

(** [repr(l)] for a list of [str]. *)
Definition repr_list (l : list string) : string :=
  "[" +:+ join ", " (repr_str <$> l) +:+ "]".

(** [repr(s)] for a non-empty set of [str], its elements in the order
    [l] in which the set is iterated; the empty set prints as [set()]. *)
Definition repr_set_of (l : list string) : string :=
  match l with
  | [] => "set()"
  | _ => "{" +:+ join ", " (repr_str <$> l) +:+ "}"
  end.

End Reprs.

(** The order in which a Python set is iterated depends on the hashes of
    its elements (for [str], on the hash seed of the process): every
    order is possible, and each element is visited once. *)
Class SetOrder := {
  set_iter : gset string → list string;
  set_iter_perm : ∀ s, set_iter s ≡ₚ elements s
}.

(** [t is a substring of s]. *)
Definition infix_of (t s : string) : Prop :=
  ∃ a b, s = a +:+ t +:+ b.

End Py.

(* ===================================================================== *)
(** ** exceptions.py, and the built-in exception classes the code names *)
(* ===================================================================== *)

Module Exceptions.

(** Validation details as returned by pydantic's [e.errors()]: the code
    reads the entries [loc] and [msg] of each one. *)
Inductive loc_item :=
| LField (name : string)
| LIndex (i : nat).

Record error_details := ErrorDetails {
  err_type : string;
  err_loc : list loc_item;
  err_msg : string
}.

(** Exception classes, all below [Exception]. [StataToDfBaseError],
    [ConfigValidationError] and [DataLoaderError] are the classes of
    exceptions.py; [OtherException name] is any other class deriving
    directly from [Exception]. Signals outside [Exception]
    (KeyboardInterrupt, SystemExit) are not modelled. *)
Inductive exn_class :=
| StataToDfBaseError
| ConfigValidationError
| DataLoaderError
| ValueError
| ImportError
| ModuleNotFoundError
| OtherException (name : string).

(** A raised exception object [cls(text)], whose [str] is [text], with
    the [__cause__] that [raise ... from e] records: another exception
    object, or pydantic's [ValidationError] with its [errors()]. *)
Inductive exn :=
| Raised (cls : exn_class) (text : string) (cause : cause)
with cause :=
| NoCause
| FromExn (e : exn)
| FromValidationError (errors : list error_details).

Definition exn_cls (e : exn) : exn_class := let 'Raised c _ _ := e in c.
Definition exn_text (e : exn) : string := let 'Raised _ t _ := e in t.

#[global] Instance exn_class_eq_dec : EqDecision exn_class.
Proof. solve_decision. Defined.

(** [issubclass(c, base)] for the classes above ([Exception] itself is
    the top and needs no entry). *)
Definition issubclass (c base : exn_class) : bool :=
  match base, c with
  | StataToDfBaseError, (StataToDfBaseError | ConfigValidationError | DataLoaderError) => true
  | ImportError, (ImportError | ModuleNotFoundError) => true
  | _, _ => bool_decide (c = base)
  end.

(** [isinstance(e, base)] *)
Definition isinstance (e : exn) (base : exn_class) : bool :=
  issubclass (exn_cls e) base.
#[global] Arguments isinstance : simpl never.


Inductive result (A : Type) :=
| Ok (a : A)
| Err (e : exn).
Arguments Ok {A} a.
Arguments Err {A} e.

End Exceptions.
Export Exceptions.

(* ===================================================================== *)
(** ** The raw configuration and pydantic's schema validation *)
(* ===================================================================== *)

(** A raw configuration is a [dict] from keys to JSON-like values. *)
Inductive value :=
| VNone
| VBool (b : bool)
| VInt (z : Z)
| VStr (s : string)
| VList (items : list value)
| VDict (entries : list (string * value)).

Module Pydantic.

(** Outcome of validating one field: the parsed value, or the errors
    found in it. *)
Definition parsed (A : Type) : Type := list error_details + A.

Definition errors_of {A} (p : parsed A) : list error_details :=
  match p with inl es => es | inr _ => [] end.

Definition missing_error (l : list loc_item) : error_details :=
  ErrorDetails "missing" l "Field required".
Definition string_type_error (l : list loc_item) : error_details :=
  ErrorDetails "string_type" l "Input should be a valid string".
Definition list_type_error (l : list loc_item) : error_details :=
  ErrorDetails "list_type" l "Input should be a valid list".
Definition too_short_error (l : list loc_item) (min_length actual : nat) : error_details :=
  ErrorDetails "too_short" l
    ("List should have at least " +:+ Py.repr_nat min_length +:+
     (if decide (min_length = 1) then " item" else " items") +:+
     " after validation, not " +:+ Py.repr_nat actual).
Definition value_error (text : string) : error_details :=
  ErrorDetails "value_error" [] ("Value error, " +:+ text).

(** [str]: only a string is a valid string. *)
Definition validate_str (l : list loc_item) (v : value) : parsed string :=
  match v with
  | VStr s => inr s
  | _ => inl [string_type_error l]
  end.

(** [Optional[str]] *)
Definition validate_optional_str (l : list loc_item) (v : value) : parsed (option string) :=
  match v with
  | VNone => inr None
  | VStr s => inr (Some s)
  | _ => inl [string_type_error l]
  end.

(** The items of a [List[str]], from index [i] on: every item is
    validated and every invalid one reported at its index. *)
Fixpoint validate_items (l : list loc_item) (i : nat) (items : list value) : parsed (list string) :=
  match items with
  | [] => inr []
  | v :: rest =>
      match validate_str (l ++ [LIndex i]) v, validate_items l (S i) rest with
      | inr s, inr ss => inr (s :: ss)
      | p, ps => inl (errors_of p ++ errors_of ps)
      end
  end.

(** [List[str] = Field(..., min_length=n)]: the length is checked on the
    validated list. *)
Definition validate_list_str (min_length : nat) (l : list loc_item) (v : value) : parsed (list string) :=
  match v with
  | VList items =>
      match validate_items l 0 items with
      | inr ss =>
          if decide (length ss < min_length)
          then inl [too_short_error l min_length (length ss)]
          else inr ss
      | inl es => inl es
      end
  | _ => inl [list_type_error l]
  end.

(** A required field, and a field with a default. *)
Definition required_field {A} (validator : list loc_item → value → parsed A)
    (raw : gmap string value) (name : string) : parsed A :=
  match raw !! name with
  | Some v => validator [LField name] v
  | None => inl [missing_error [LField name]]
  end.

Definition default_field {A} (validator : list loc_item → value → parsed A)
    (default : A) (raw : gmap string value) (name : string) : parsed A :=
  match raw !! name with
  | Some v => validator [LField name] v
  | None => inr default
  end.

Section Locations.
Context `{!Py.Repr}.

(** [repr] of a location tuple, as printed by [f"{err['loc']}"]. *)
Definition repr_loc_item (x : loc_item) : string :=
  match x with
  | LField name => Py.repr_str name
  | LIndex i => Py.repr_nat i
  end.

Definition repr_loc (l : list loc_item) : string :=
  match l with
  | [] => "()"
  | [x] => "(" +:+ repr_loc_item x +:+ ",)"
  | _ => "(" +:+ Py.join ", " (repr_loc_item <$> l) +:+ ")"
  end.

End Locations.

End Pydantic.

(* ===================================================================== *)
(** ** config.py *)
(* ===================================================================== *)

Module Config.

(** [class ConfigModel(BaseModel)] *)
Record ConfigModel := {
  row_var : list string;
  col_var : list string;
  value_var : string;
  pweight : option string;
  secondary_ref : option string
}.

(** [if name: s.add(name)] for an [Optional[str]]: [None] and the empty
    string are both false. *)
Definition add_if_set (name : option string) (s : gset string) : gset string :=
  match name with
  | Some n => if bool_decide (n ≠ "") then s ∪ {[ n ]} else s
  | None => s
  end.

(** Outcome of [ConfigModel.model_validate]: the model, a
    [ValidationError] with its [errors()], or any other exception. *)
Inductive outcome :=
| Validated (m : ConfigModel)
| Invalid (errors : list error_details)
| Crashed (e : exn).

Section Validation.
Context `{!Py.SetOrder} `{!Py.Repr}.

(** [f"{s}"] for a set of names. *)
Definition repr_set (s : gset string) : string :=
  Py.repr_set_of (Py.set_iter s).

Definition core_vars (self : ConfigModel) : gset string :=
  add_if_set (secondary_ref self) (add_if_set (pweight self) {[ value_var self ]}).

Definition all_index_vars (self : ConfigModel) : gset string :=
  list_to_set (row_var self ++ col_var self).

Definition overlap (self : ConfigModel) : gset string :=
  core_vars self ∩ all_index_vars self.

(** [@model_validator(mode='after') check_variable_names_distinct] *)
Definition check_variable_names_distinct (self : ConfigModel) : result ConfigModel :=
  if bool_decide (overlap self ≠ ∅) then
    Err (Raised ValueError
           ("Overlap detected between index variables (row_var, col_var) and core variables (value_var, pweight, secondary_ref): "
            +:+ repr_set (overlap self)) NoCause)
  else if bool_decide (length (row_var self) ≠ size (list_to_set (row_var self) : gset string)) then
    Err (Raised ValueError
           ("Duplicate variable names found within row_var: "
            +:+ Py.repr_list (row_var self)) NoCause)
  else if bool_decide (length (col_var self) ≠ size (list_to_set (col_var self) : gset string)) then
    Err (Raised ValueError
           ("Duplicate variable names found within col_var: "
            +:+ Py.repr_list (col_var self)) NoCause)
  else Ok self.

(** Structural validation of the five fields, in declaration order;
    the errors of all fields are collected. *)
Definition structural (raw : gmap string value) : Pydantic.parsed ConfigModel :=
  let r := Pydantic.required_field (Pydantic.validate_list_str 1) raw "row_var" in
  let c := Pydantic.required_field (Pydantic.validate_list_str 1) raw "col_var" in
  let v := Pydantic.required_field Pydantic.validate_str raw "value_var" in
  let p := Pydantic.default_field Pydantic.validate_optional_str None raw "pweight" in
  let s := Pydantic.default_field Pydantic.validate_optional_str None raw "secondary_ref" in
  match r, c, v, p, s with
  | inr r', inr c', inr v', inr p', inr s' =>
      inr {| row_var := r'; col_var := c'; value_var := v';
             pweight := p'; secondary_ref := s' |}
  | _, _, _, _, _ =>
      inl (Pydantic.errors_of r ++ Pydantic.errors_of c ++ Pydantic.errors_of v ++
           Pydantic.errors_of p ++ Pydantic.errors_of s)
  end.

(** [ConfigModel.model_validate(config_dict)]: the fields first; the
    after-validator only on a model whose fields are all valid. A
    [ValueError] raised by the validator becomes a validation error at
    the root location; keys the model does not declare are ignored. *)
Definition model_validate (raw : gmap string value) : outcome :=
  match structural raw with
  | inl errors => Invalid errors
  | inr m =>
      match check_variable_names_distinct m with
      | Ok m' => Validated m'
      | Err e =>
          if isinstance e ValueError
          then Invalid [Pydantic.value_error (exn_text e)]
          else Crashed e
      end
  end.

(** One line of the message: [f"- {err['loc']}: {err['msg']}"]. *)
Definition error_line (err : error_details) : string :=
  "- " +:+ Pydantic.repr_loc (err_loc err) +:+ ": " +:+ err_msg err.

(** [validate_config(config_dict)]. The lookup of ['sdc_rules'] at the
    head of the [try] binds a local and does nothing else. *)
Definition validate_config (config_dict : gmap string value) : result ConfigModel :=
  match model_validate config_dict with
  | Validated validated_config => Ok validated_config
  | Invalid errors =>
      let error_messages := Py.join Py.nl (error_line <$> errors) in
      Err (Raised ConfigValidationError
             ("Configuration validation failed:" +:+ Py.nl +:+ error_messages)
             (FromValidationError errors))
  | Crashed e =>
      Err (Raised ConfigValidationError
             ("An unexpected error occurred during configuration validation: "
              +:+ exn_text e)
             (FromExn e))
  end.

End Validation.

End Config.
Export Config.

(* ===================================================================== *)
(** ** __init__.py *)
(* ===================================================================== *)

Module Main.

(** *** The process and the external session *)

Inductive level := DEBUG | INFO | WARNING | ERROR.

(** A record handed to the logger ["stata_to_df"]. *)
Record log_record := LogRecord { log_level : level; log_text : string }.

(** A pandas table as far as the code looks at it: the column names and
    the rows. *)
Inductive cell :=
| Missing
| Number (z : Z)
| Label (s : string).

Record DataFrame := { columns : list string; rows : list (list cell) }.

(** [df.shape] and [df.empty] (an axis of length 0). *)
Definition shape (df : DataFrame) : nat * nat := (length (rows df), length (columns df)).

Definition empty (df : DataFrame) : bool :=
  bool_decide (length (rows df) = 0%nat) || bool_decide (length (columns df) = 0%nat).

Definition repr_shape (df : DataFrame) : string :=
  "(" +:+ Py.repr_nat (fst (shape df)) +:+ ", " +:+ Py.repr_nat (snd (shape df)) +:+ ")".

(** The calls made to pystata, in the order they are made. *)
Inductive call :=
| ImportConfig                                              (* from pystata import config *)
| ConfigInit (edition : string)                             (* config.init(edition, splash=False) *)
| ImportStata                                               (* from pystata import stata *)
| PdataframeFromData (var : list string) (valuelabel : bool). (* missingval=np.nan *)

(** How pystata answers: the imports depend on [sys.path]. *)
Record pystata := {
  import_config : list string → result ();
  config_init : string → result ();
  import_stata : list string → result ();
  pdataframe_from_data : list string → bool → result DataFrame
}.

(** The module-level constants read from [os.environ] at import time. *)
Record environ := { PYSTATA_PATH : option string; STATA_EDITION : option string }.

(** The mutable state of the process. *)
Record state := State {
  sys_path : list string;
  calls : list call;
  log : list log_record
}.

(** The handle [pystata.stata] returned by [setup_stata]. *)
Inductive stata_module := PystataStata.

(** *** Computations: state threading and exceptions *)

Definition M (A : Type) : Type := state → result A * state.

#[global] Instance M_ret : MRet M := λ A a s, (Ok a, s).
#[global] Instance M_bind : MBind M := λ A B f m s,
  match m s with
  | (Ok a, s') => f a s'
  | (Err e, s') => (Err e, s')
  end.

Definition raise {A} (e : exn) : M A := λ s, (Err e, s).

(** [try: body / except Exception as e: handler e] *)
Definition try_except {A} (body : M A) (handler : exn → M A) : M A := λ s,
  match body s with
  | (Ok a, s') => (Ok a, s')
  | (Err e, s') => handler e s'
  end.

(** A function that touches no state. *)
Definition pure_call {A} (r : result A) : M A := λ s, (r, s).

Definition logger (lv : level) (text : string) : M () := λ s,
  (Ok (), State (sys_path s) (calls s) (log s ++ [LogRecord lv text])).

Definition sys_path_append (p : string) : M () := λ s,
  (Ok (), State (sys_path s ++ [p]) (calls s) (log s)).

Definition get_sys_path : M (list string) := λ s, (Ok (sys_path s), s).

(** An external call: recorded, then answered; the answer may depend on
    [sys.path]. *)
Definition external {A} (c : call) (answer : list string → result A) : M A := λ s,
  (answer (sys_path s), State (sys_path s) (calls s ++ [c]) (log s)).

(** [if name:] on an environment value: the name when it is set and not
    empty. *)
Definition if_set (name : option string) : option string :=
  match name with
  | Some n => if bool_decide (n ≠ "") then Some n else None
  | None => None
  end.

Section Program.
Context `{!Py.SetOrder} `{!Py.Repr} (env : environ) (ext : pystata).

(** [setup_stata()] *)
Definition setup_stata : M stata_module :=
  logger DEBUG "Attempting to set up Stata environment...";;
  match if_set (PYSTATA_PATH env) with
  | None =>
      let msg := "PYSTATA_PATH environment variable not set. Cannot initialize pystata." in
      logger ERROR msg;;
      raise (Raised DataLoaderError msg NoCause)
  | Some path =>
      p ← get_sys_path;
      (if bool_decide (path ∉ p)
       then logger DEBUG ("Adding PYSTATA_PATH '" +:+ path +:+ "' to sys.path.");;
            sys_path_append path
       else logger DEBUG ("PYSTATA_PATH '" +:+ path +:+ "' already in sys.path."));;
      match if_set (STATA_EDITION env) with
      | None =>
          let msg := "STATA_EDITION environment variable not set. Cannot initialize pystata." in
          logger ERROR msg;;
          raise (Raised DataLoaderError msg NoCause)
      | Some edition =>
          p ← get_sys_path;
          (if bool_decide (edition ∉ p)
           then logger DEBUG ("Adding STATA_EDITION '" +:+ edition +:+ "' to sys.path.");;
                sys_path_append edition
           else logger DEBUG ("STATA_EDITION '" +:+ edition +:+ "' already in sys.path."));;
          try_except
            (external ImportConfig (import_config ext);;
             external (ConfigInit edition) (λ _, config_init ext edition);;
             external ImportStata (import_stata ext);;
             logger INFO "pystata initialized successfully.";;
             mret PystataStata)
            (λ e,
               if isinstance e ImportError then
                 let msg := "Failed to import pystata. Ensure PYSTATA_PATH ('" +:+ path +:+
                            "') is correct and pystata is installed. Error: " +:+ exn_text e in
                 logger ERROR msg;;
                 raise (Raised DataLoaderError msg (FromExn e))
               else
                 let msg := "Failed to initialize pystata. Error: " +:+ exn_text e in
                 logger ERROR msg;;
                 raise (Raised DataLoaderError msg (FromExn e)))
      end
  end.

(** The set built at the head of [load_data]. *)
Definition required_vars (config : ConfigModel) : gset string :=
  add_if_set (secondary_ref config)
    (add_if_set (pweight config)
       (list_to_set (row_var config ++ col_var config ++ [value_var config]))).

(** The two [except] clauses of [load_data]. [st_import_vars] is
    assigned inside the [try], after [setup_stata()]: the second clause
    reads it, and finds it unbound when the exception came earlier. *)
Definition load_data_except {A} (st_import_vars : option (list string)) (e : exn) : M A :=
  if isinstance e DataLoaderError then raise e
  else
    match st_import_vars with
    | Some vars =>
        let msg := "Failed to load data from Stata. Ensure variables " +:+
                   Py.repr_list vars +:+ " exist. Error: " +:+ exn_text e in
        logger ERROR msg;;
        raise (Raised DataLoaderError msg (FromExn e))
    | None =>
        raise (Raised (OtherException "UnboundLocalError")
                 "cannot access local variable 'st_import_vars' where it is not associated with a value"
                 NoCause)
    end.

(** [load_data(config, valuelabel)]. Both clauses end in [raise], so the
    one [try] is written as its part before the assignment of
    [st_import_vars] followed by its part after it. *)
Definition load_data (config : ConfigModel) (valuelabel : bool) : M DataFrame :=
  let required_vars := required_vars config in
  logger INFO "Attempting to load data from Stata...";;
  stata ← try_except setup_stata (load_data_except None);
  let st_import_vars := Py.set_iter required_vars in
  try_except
    (logger DEBUG ("Requesting variables from Stata: " +:+ Py.repr_list st_import_vars);;
     df ← external (PdataframeFromData st_import_vars valuelabel)
            (λ _, pdataframe_from_data ext st_import_vars valuelabel);
     logger INFO ("Successfully loaded DataFrame from Stata with shape " +:+ repr_shape df +:+ ".");;
     logger DEBUG ("Columns loaded from Stata: " +:+ Py.repr_list (columns df));;
     (if empty df then logger WARNING "Loaded DataFrame from Stata is empty." else mret ());;
     mret df)
    (load_data_except (Some st_import_vars)).

(** The [try] of [stata_to_df] around a body: both clauses log and
    re-raise with a bare [raise]. *)
Definition entry_guard {A} (body : M A) : M A :=
  try_except body
    (λ e,
       if isinstance e StataToDfBaseError then
         logger ERROR ("Error in configuration or data loading: " +:+ exn_text e);;
         raise e
       else
         logger ERROR ("Unexpected error in export: " +:+ exn_text e);;
         raise e).

(** [stata_to_df(config_dict, valuelabel)] *)
Definition stata_to_df (config_dict : gmap string value) (valuelabel : bool) : M DataFrame :=
  entry_guard
    (config ← pure_call (validate_config config_dict);
     df ← load_data config valuelabel;
     mret df).

End Program.

End Main.
Export Main.

(* ===================================================================== *)
(** ** Vocabulary of the statements *)
(* ===================================================================== *)

(** The order of stdpp's [elements] is one possible iteration order. *)
Definition elements_order : Py.SetOrder :=
  {| Py.set_iter := elements; Py.set_iter_perm := λ s, reflexivity _ |}.

#[local] Existing Instance elements_order.

(** A [repr] to run the definitions on ASCII text. Where [repr_ascii] has
    no answer it stands for no behaviour of Python, and nothing below
    uses it there. *)
Definition ascii_repr : Py.Repr :=
  {| Py.repr_str := λ s, default "" (Py.repr_ascii s);
     Py.repr_str_ascii := λ s r H, f_equal (default "") H |}.

#[local] Existing Instance ascii_repr.

Definition cfg_raw (row col : list string) (v : string) : gmap string value :=
  {[ "row_var" := VList (VStr <$> row); "col_var" := VList (VStr <$> col);
     "value_var" := VStr v ]}.

(** [x] overlaps: it is one of the index variables and also the value
    variable, or a weight or secondary reference that is set and not
    empty. *)
Definition overlaps (m : ConfigModel) (x : string) : Prop :=
  x ∈ row_var m ++ col_var m ∧
  (x = value_var m ∨ (pweight m = Some x ∧ x ≠ "") ∨ (secondary_ref m = Some x ∧ x ≠ "")).

(** The variable name that an optional entry of the raw mapping gives:
    none when the key is absent or holds [None]. *)
Definition input_name (entry : option value) : option (option string) :=
  match entry with
  | None | Some VNone => Some None
  | Some (VStr s) => Some (Some s)
  | Some _ => None
  end.

(** A computation only appends to the call record and to the log, and what
    it does depends on [sys.path] alone: running it from [State p c l] is
    running it from [State p [] []] with [c] and [l] put in front. *)
Definition shift {A} (c : list call) (l : list log_record) (x : result A * state) : result A * state :=
  (x.1, State (sys_path x.2) (c ++ calls x.2) (l ++ log x.2)).

Definition framed {A} (m : M A) : Prop :=
  ∀ p c l, m (State p c l) = shift c l (m (State p [] [])).

(** The variable lists of the data requests among the calls. *)
Definition requested (cs : list call) : list (list string) :=
  omap (λ k, match k with PdataframeFromData var _ => Some var | _ => None end) cs.

(** The state in which [load_data] calls [setup_stata]. *)
Definition announced (s : state) : state :=
  State (sys_path s) (calls s) (log s ++ [LogRecord INFO "Attempting to load data from Stata..."]).

(** The text of the error that wraps a failed request. *)
Definition request_error_text `{!Py.Repr} (vars : list string) (e : exn) : string :=
  "Failed to load data from Stata. Ensure variables " +:+ Py.repr_list vars +:+
  " exist. Error: " +:+ exn_text e.

(** The model with one optional field replaced. *)
Definition with_pweight (name : option string) (m : ConfigModel) : ConfigModel :=
  {| row_var := row_var m; col_var := col_var m; value_var := value_var m;
     pweight := name; secondary_ref := secondary_ref m |}.

Definition with_secondary_ref (name : option string) (m : ConfigModel) : ConfigModel :=
  {| row_var := row_var m; col_var := col_var m; value_var := value_var m;
     pweight := pweight m; secondary_ref := name |}.

(** Two validations end alike: both accept, or both raise the same
    exception. *)
Definition same_verdict (r1 r2 : result ConfigModel) : Prop :=
  match r1, r2 with
  | Ok _, Ok _ => True
  | Err e1, Err e2 => e1 = e2
  | _, _ => False
  end.

(** The required set in the words of the specification, an optional name
    counting as present when it is not [None]. *)
Definition present (name : option string) : gset string :=
  match name with
  | Some n => {[ n ]}
  | None => ∅
  end.

Definition spec_required (m : ConfigModel) : gset string :=
  list_to_set (row_var m) ∪ list_to_set (col_var m) ∪ {[ value_var m ]} ∪
  present (pweight m) ∪ present (secondary_ref m).

(** The same, an optional name counting as present when it is neither
    [None] nor empty. *)
Definition present_nonempty (name : option string) : gset string :=
  match name with
  | Some n => if bool_decide (n ≠ "") then {[ n ]} else ∅
  | None => ∅
  end.

Definition required_nonempty (m : ConfigModel) : gset string :=
  list_to_set (row_var m) ∪ list_to_set (col_var m) ∪ {[ value_var m ]} ∪
  present_nonempty (pweight m) ∪ present_nonempty (secondary_ref m).


Definition is_str (v : value) : bool :=
  match v with VStr _ => true | _ => false end.







(** The message of a failed validation that reports [errors]. *)
Definition validation_failed_text `{!Py.Repr} (errors : list error_details) : string :=
  "Configuration validation failed:" +:+ Py.nl +:+ Py.join Py.nl (error_line <$> errors).

(** A process that has done nothing yet. *)
Definition fresh : state := State [] [] [].

(** A process whose bootstrap configuration is set, and a session that
    imports, initialises and answers every request with [answer]. *)
Definition env_ready : environ :=
  {| PYSTATA_PATH := Some "/opt/stata/utilities"; STATA_EDITION := Some "mp" |}.

Definition session (answer : result DataFrame) : pystata :=
  {| import_config := λ _, Ok (); config_init := λ _, Ok ();
     import_stata := λ _, Ok (); pdataframe_from_data := λ _ _, answer |}.

(** A valid configuration whose weight is the empty string. *)
Definition blank_weight : ConfigModel :=
  {| row_var := ["a"]; col_var := ["b"]; value_var := "v";
     pweight := Some ""; secondary_ref := None |}.

(** A table without rows. *)
Definition no_rows : DataFrame := {| columns := ["a"; "b"; "v"]; rows := [] |}.

(** The keys that [ConfigModel] declares. *)
Definition declared : list string :=
  ["row_var"; "col_var"; "value_var"; "pweight"; "secondary_ref"].

(** [sys.path] after [if x not in sys.path: sys.path.append(x)]. *)
Definition path_added (x : string) (p : list string) : list string :=
  if bool_decide (x ∉ p) then p ++ [x] else p.

(** A log record below the level of a warning. *)
Definition quiet (r : log_record) : Prop :=
  log_level r = DEBUG ∨ log_level r = INFO.

(** The texts of the two [except] clauses of [setup_stata], and the choice
    between them by the class of the exception. *)
Definition import_failed_text (path : string) (e : exn) : string :=
  "Failed to import pystata. Ensure PYSTATA_PATH ('" +:+ path +:+
  "') is correct and pystata is installed. Error: " +:+ exn_text e.

Definition init_failed_text (e : exn) : string :=
  "Failed to initialize pystata. Error: " +:+ exn_text e.

Definition setup_failed_text (path : string) (e : exn) : string :=
  if isinstance e ImportError then import_failed_text path e else init_failed_text e.

(** The lines of the message for the structural violations of the field
    [f], kind by kind, as they are printed: the location tuple, a colon
    and pydantic's sentence. *)
Definition missing_line (raw : gmap string value) (f : string) : list string :=
  match raw !! f with
  | None => ["- ('" +:+ f +:+ "',): Field required"]
  | Some _ => []
  end.

Definition wrong_list_line (raw : gmap string value) (f : string) : list string :=
  match raw !! f with
  | Some (VList items) =>
      mjoin (imap (λ i v, if is_str v then []
                          else ["- ('" +:+ f +:+ "', " +:+ Py.repr_nat i +:+
                                "): Input should be a valid string"]) items)
  | Some _ => ["- ('" +:+ f +:+ "',): Input should be a valid list"]
  | None => []
  end.

Definition wrong_str_line (raw : gmap string value) (f : string) : list string :=
  match raw !! f with
  | Some (VStr _) | None => []
  | Some _ => ["- ('" +:+ f +:+ "',): Input should be a valid string"]
  end.

Definition wrong_optional_line (raw : gmap string value) (f : string) : list string :=
  match raw !! f with
  | Some (VStr _) | Some VNone | None => []
  | Some _ => ["- ('" +:+ f +:+ "',): Input should be a valid string"]
  end.

Definition empty_list_line (raw : gmap string value) (f : string) : list string :=
  match raw !! f with
  | Some (VList []) =>
      ["- ('" +:+ f +:+ "',): List should have at least 1 item after validation, not 0"]
  | _ => []
  end.

Definition violation_lines (raw : gmap string value) : list string :=
  (missing_line raw "row_var" ++ missing_line raw "col_var" ++ missing_line raw "value_var") ++
  (wrong_list_line raw "row_var" ++ wrong_list_line raw "col_var" ++
   wrong_str_line raw "value_var" ++
   wrong_optional_line raw "pweight" ++ wrong_optional_line raw "secondary_ref") ++
  (empty_list_line raw "row_var" ++ empty_list_line raw "col_var").





(* ===================================================================== *)
(** ** The definitions on small inputs *)
(* ===================================================================== *)

Example repr_str_plain `{!Py.Repr} : Py.repr_str "w" = "'w'".
Proof. by apply Py.repr_str_ascii. Qed.

Example repr_list_two `{!Py.Repr} : Py.repr_list ["a"; "b"] = "['a', 'b']".
Proof.
  unfold Py.repr_list. cbn [fmap list_fmap].
  by rewrite (Py.repr_str_ascii "a" "'a'"), (Py.repr_str_ascii "b" "'b'").
Qed.

Example repr_nat_12 : Py.repr_nat 12 = "12".
Proof. reflexivity. Qed.

Example repr_loc_field `{!Py.Repr} : Pydantic.repr_loc [LField "row_var"] = "('row_var',)".
Proof.
  unfold Pydantic.repr_loc, Pydantic.repr_loc_item.
  by rewrite (Py.repr_str_ascii "row_var" "'row_var'").
Qed.

Example repr_loc_item_index `{!Py.Repr} :
  Pydantic.repr_loc [LField "row_var"; LIndex 0] = "('row_var', 0)".
Proof.
  unfold Pydantic.repr_loc. cbn [fmap list_fmap Pydantic.repr_loc_item].
  by rewrite (Py.repr_str_ascii "row_var" "'row_var'").
Qed.

Example validate_list_two_bad_items :
  Pydantic.errors_of
    (Pydantic.validate_list_str 1 [LField "row_var"] (VList [VInt 1; VStr "a"; VNone]))
  = [Pydantic.string_type_error [LField "row_var"; LIndex 0];
     Pydantic.string_type_error [LField "row_var"; LIndex 2]].
Proof. reflexivity. Qed.

Example validate_region_year :
  validate_config (cfg_raw ["region"] ["year"] "income")
  = Ok {| row_var := ["region"]; col_var := ["year"]; value_var := "income";
          pweight := None; secondary_ref := None |}.
Proof. vm_compute. reflexivity. Qed.

(* ===================================================================== *)
(** ** Substrings of the messages *)
(* ===================================================================== *)

Section Infix.

Lemma app_assoc_s (a b c : string) : (a +:+ b) +:+ c = a +:+ b +:+ c.
Proof.
  induction a as [|x a IH]; [done|].
  change (String x ((a +:+ b) +:+ c) = String x (a +:+ b +:+ c)). by rewrite IH.
Qed.

Lemma app_empty_r (a : string) : a +:+ "" = a.
Proof.
  induction a as [|x a IH]; [done|].
  change (String x (a +:+ "") = String x a). by rewrite IH.
Qed.

Lemma infix_of_refl (t : string) : Py.infix_of t t.
Proof. exists "", "". change (t = t +:+ ""). by rewrite app_empty_r. Qed.

Lemma infix_of_app_l (t a s : string) : Py.infix_of t s → Py.infix_of t (a +:+ s).
Proof.
  intros (x & y & ->). exists (a +:+ x), y. by rewrite app_assoc_s.
Qed.

Lemma infix_of_app_r (t s b : string) : Py.infix_of t s → Py.infix_of t (s +:+ b).
Proof.
  intros (x & y & ->). exists x, (y +:+ b). by rewrite !app_assoc_s.
Qed.

Lemma infix_of_cons (t : string) (c : ascii) (s : string) :
  Py.infix_of t s → Py.infix_of t (String c s).
Proof. intros H. by apply (infix_of_app_l t (String c "") s). Qed.

Lemma infix_of_trans (t u s : string) :
  Py.infix_of t u → Py.infix_of u s → Py.infix_of t s.
Proof.
  intros Htu (x & y & ->). by apply infix_of_app_l, infix_of_app_r.
Qed.

(** Every part of a joined text is a substring of it. *)
Lemma infix_of_join (sep p : string) (parts : list string) :
  p ∈ parts → Py.infix_of p (Py.join sep parts).
Proof.
  induction parts as [|q [|q' rest] IH]; intros Hin.
  - by apply not_elem_of_nil in Hin.
  - apply list_elem_of_singleton in Hin as ->. apply infix_of_refl.
  - apply elem_of_cons in Hin as [->|Hin].
    + change (Py.infix_of q (q +:+ sep +:+ Py.join sep (q' :: rest))).
      apply infix_of_app_r, infix_of_refl.
    + change (Py.infix_of p (q +:+ sep +:+ Py.join sep (q' :: rest))).
      by apply infix_of_app_l, infix_of_app_l, IH.
Qed.

Lemma infix_of_repr_list `{!Py.Repr} (x : string) (l : list string) :
  x ∈ l → Py.infix_of (Py.repr_str x) (Py.repr_list l).
Proof.
  intros Hin. unfold Py.repr_list.
  apply infix_of_app_l, infix_of_app_r, infix_of_join.
  by apply list_elem_of_fmap_2.
Qed.

Lemma infix_of_repr_set_of `{!Py.Repr} (x : string) (l : list string) :
  x ∈ l → Py.infix_of (Py.repr_str x) (Py.repr_set_of l).
Proof.
  intros Hin. destruct l as [|y l]; [by apply not_elem_of_nil in Hin|].
  unfold Py.repr_set_of.
  apply infix_of_app_l, infix_of_app_r, infix_of_join.
  by apply list_elem_of_fmap_2.
Qed.

End Infix.

(* ===================================================================== *)
(** ** Facts about config.py *)
(* ===================================================================== *)

Section ListSets.

Lemma size_list_to_set_le (l : list string) :
  size (list_to_set l : gset string) ≤ length l.
Proof.
  induction l as [|x l IH]; [by rewrite list_to_set_nil, size_empty|].
  rewrite list_to_set_cons, size_union_alt, size_singleton. cbn.
  assert (size ((list_to_set l : gset string) ∖ {[x]}) ≤ size (list_to_set l : gset string)).
  { apply subseteq_size. set_solver. }
  lia.
Qed.

(** [len(l) != len(set(l))] holds exactly when [l] repeats a name. *)
Lemma length_eq_size_NoDup (l : list string) :
  length l = size (list_to_set l : gset string) ↔ NoDup l.
Proof.
  split; [|intros Hnd; by rewrite size_list_to_set].
  induction l as [|x l IH]; intros Hlen; [constructor|].
  rewrite list_to_set_cons in Hlen. cbn in Hlen.
  pose proof (size_list_to_set_le l) as Hle.
  destruct (decide (x ∈ l)) as [Hin|Hnin].
  - assert ({[x]} ∪ list_to_set l = (list_to_set l : gset string)) as Heq by set_solver.
    rewrite Heq in Hlen. lia.
  - rewrite size_union, size_singleton in Hlen by set_solver.
    constructor; [done|]. apply IH. lia.
Qed.

End ListSets.

Section ConfigFacts.
Context `{!Py.SetOrder} `{!Py.Repr}.

Lemma elem_of_add_if_set (x : string) (name : option string) (s : gset string) :
  x ∈ add_if_set name s ↔ x ∈ s ∨ (name = Some x ∧ x ≠ "").
Proof.
  unfold add_if_set. destruct name as [n|]; [|naive_solver].
  case_bool_decide; set_solver.
Qed.

Lemma elem_of_core_vars (x : string) (m : ConfigModel) :
  x ∈ core_vars m ↔
  x = value_var m ∨ (pweight m = Some x ∧ x ≠ "") ∨ (secondary_ref m = Some x ∧ x ≠ "").
Proof.
  unfold core_vars. rewrite !elem_of_add_if_set, elem_of_singleton. tauto.
Qed.

Lemma elem_of_overlap (x : string) (m : ConfigModel) :
  x ∈ overlap m ↔ overlaps m x.
Proof.
  unfold overlap, overlaps, all_index_vars.
  rewrite elem_of_intersection, elem_of_core_vars, elem_of_list_to_set. tauto.
Qed.

Lemma repr_set_names (x : string) (s : gset string) :
  x ∈ s → Py.infix_of (Py.repr_str x) (repr_set s).
Proof.
  intros Hin. apply infix_of_repr_set_of.
  by rewrite Py.set_iter_perm, elem_of_elements.
Qed.

(** The validator accepts exactly the models without overlap and without
    a repeated name inside [row_var] or inside [col_var]. *)
Lemma check_variable_names_distinct_ok (m : ConfigModel) :
  check_variable_names_distinct m = Ok m ↔
  overlap m = ∅ ∧ NoDup (row_var m) ∧ NoDup (col_var m).
Proof.
  unfold check_variable_names_distinct.
  rewrite <- !length_eq_size_NoDup.
  repeat case_bool_decide; naive_solver.
Qed.

Lemma check_variable_names_distinct_self (m m' : ConfigModel) :
  check_variable_names_distinct m = Ok m' → m' = m.
Proof.
  unfold check_variable_names_distinct.
  repeat case_bool_decide; naive_solver.
Qed.


(** On an overlap the text of the [ValueError] is the fixed sentence
    followed by the set. *)
Lemma check_variable_names_distinct_overlap (m : ConfigModel) :
  overlap m ≠ ∅ →
  check_variable_names_distinct m =
    Err (Raised ValueError
           ("Overlap detected between index variables (row_var, col_var) and core variables (value_var, pweight, secondary_ref): "
            +:+ repr_set (overlap m)) NoCause).
Proof.
  intros Hne. unfold check_variable_names_distinct. by rewrite bool_decide_true.
Qed.

Lemma validate_items_strings (l : list loc_item) (i : nat) (names : list string) :
  Pydantic.validate_items l i (VStr <$> names) = inr names.
Proof.
  revert i. induction names as [|n names IH]; intros i; [done|].
  cbn. by rewrite IH.
Qed.

Lemma validate_list_str_strings (l : list loc_item) (names : list string) :
  names ≠ [] →
  Pydantic.validate_list_str 1 l (VList (VStr <$> names)) = inr names.
Proof.
  intros Hne. unfold Pydantic.validate_list_str.
  rewrite validate_items_strings.
  destruct names; [done|]. cbn. case_decide; [lia|done].
Qed.

Lemma default_field_input_name (raw : gmap string value) (name : string) (o : option string) :
  input_name (raw !! name) = Some o →
  Pydantic.default_field Pydantic.validate_optional_str None raw name = inr o.
Proof.
  unfold Pydantic.default_field, input_name.
  destruct (raw !! name) as [[]|]; naive_solver.
Qed.

(** Structural validation of a mapping whose five entries are well typed. *)
Lemma structural_well_typed (raw : gmap string value)
    (rows cols : list string) (v : string) (pw sr : option string) :
  raw !! "row_var" = Some (VList (VStr <$> rows)) → rows ≠ [] →
  raw !! "col_var" = Some (VList (VStr <$> cols)) → cols ≠ [] →
  raw !! "value_var" = Some (VStr v) →
  input_name (raw !! "pweight") = Some pw →
  input_name (raw !! "secondary_ref") = Some sr →
  structural raw = inr {| row_var := rows; col_var := cols; value_var := v;
                          pweight := pw; secondary_ref := sr |}.
Proof.
  intros Hr Hrne Hc Hcne Hv Hp Hs. unfold structural.
  rewrite (default_field_input_name _ _ _ Hp), (default_field_input_name _ _ _ Hs).
  unfold Pydantic.required_field. rewrite Hr, Hc, Hv.
  by rewrite !validate_list_str_strings.
Qed.

(** [validate_config] on a structurally valid mapping is decided by the
    after-validator. *)
Lemma validate_config_accepts (raw : gmap string value) (m : ConfigModel) :
  structural raw = inr m →
  overlap m = ∅ → NoDup (row_var m) → NoDup (col_var m) →
  validate_config raw = Ok m.
Proof.
  intros Hs Ho Hr Hc. unfold validate_config, model_validate. rewrite Hs.
  by rewrite (proj2 (check_variable_names_distinct_ok m)).
Qed.

End ConfigFacts.

(* ===================================================================== *)
(** ** Facts about the computations of __init__.py *)
(* ===================================================================== *)

Create HintDb framed.

Section Framed.

Lemma framed_ret {A} (a : A) : framed (mret a).
Proof. intros p c l. unfold shift, mret, M_ret. cbn. by rewrite !app_nil_r. Qed.

Lemma framed_raise {A} (e : exn) : framed (@raise A e).
Proof. intros p c l. unfold shift, raise. cbn. by rewrite !app_nil_r. Qed.

Lemma framed_pure_call {A} (r : result A) : framed (pure_call r).
Proof. intros p c l. unfold shift, pure_call. cbn. by rewrite !app_nil_r. Qed.

Lemma framed_logger (lv : level) (text : string) : framed (logger lv text).
Proof. intros p c l. unfold shift, logger. cbn. by rewrite !app_nil_r. Qed.

Lemma framed_sys_path_append (x : string) : framed (sys_path_append x).
Proof. intros p c l. unfold shift, sys_path_append. cbn. by rewrite !app_nil_r. Qed.

Lemma framed_get_sys_path : framed get_sys_path.
Proof. intros p c l. unfold shift, get_sys_path. cbn. by rewrite !app_nil_r. Qed.

Lemma framed_external {A} (k : call) (answer : list string → result A) :
  framed (external k answer).
Proof. intros p c l. unfold shift, external. cbn. by rewrite !app_nil_r. Qed.

Lemma framed_bind {A B} (m : M A) (f : A → M B) :
  framed m → (∀ a, framed (f a)) → framed (m ≫= f).
Proof.
  intros Hm Hf p c l. unfold mbind, M_bind. rewrite (Hm p c l).
  destruct (m (State p [] [])) as [[a|e] [p1 c1 l1]]; cbn; [|done].
  rewrite (Hf a p1 (c ++ c1) (l ++ l1)), (Hf a p1 c1 l1).
  unfold shift. cbn. by rewrite !app_assoc.
Qed.

Lemma framed_try_except {A} (body : M A) (handler : exn → M A) :
  framed body → (∀ e, framed (handler e)) → framed (try_except body handler).
Proof.
  intros Hm Hf p c l. unfold try_except. rewrite (Hm p c l).
  destruct (body (State p [] [])) as [[a|e] [p1 c1 l1]]; cbn; [done|].
  rewrite (Hf e p1 (c ++ c1) (l ++ l1)), (Hf e p1 c1 l1).
  unfold shift. cbn. by rewrite !app_assoc.
Qed.

(** From any state. *)
Lemma framed_run {A} (m : M A) (s : state) :
  framed m → m s = shift (calls s) (log s) (m (State (sys_path s) [] [])).
Proof. intros Hm. destruct s as [p c l]. apply Hm. Qed.

End Framed.

#[global] Hint Resolve framed_ret framed_raise framed_pure_call framed_logger
  framed_sys_path_append framed_get_sys_path framed_external : framed.

(** Splits a composed computation into its steps. *)
Ltac framed_step :=
  match goal with
  | |- framed (_ ≫= _) => apply framed_bind; [|intros ?]
  | |- framed (try_except _ _) => apply framed_try_except; [|intros ?]
  | |- framed (match ?x with _ => _ end) => destruct x
  | |- framed (if ?b then _ else _) => destruct b
  | |- framed _ => solve [auto with framed]
  end.

Section MainFacts.
Context `{!Py.SetOrder} `{!Py.Repr} (env : environ) (ext : pystata).

Lemma framed_setup_stata : framed (setup_stata env ext).
Proof. unfold setup_stata. repeat framed_step. Qed.

Lemma framed_load_data_except {A} (vars : option (list string)) (e : exn) :
  framed (load_data_except (A:=A) vars e).
Proof. unfold load_data_except. repeat framed_step. Qed.

Lemma framed_load_data (config : ConfigModel) (valuelabel : bool) :
  framed (load_data env ext config valuelabel).
Proof.
  unfold load_data.
  repeat framed_step; first [apply framed_setup_stata | apply framed_load_data_except].
Qed.

(** [setup_stata] raises nothing but [DataLoaderError], and makes no data
    request. *)
Lemma setup_stata_raises (s : state) (e : exn) (s' : state) :
  setup_stata env ext s = (Err e, s') → exn_cls e = DataLoaderError.
Proof.
  unfold setup_stata, mbind, M_bind, try_except, logger, raise, get_sys_path,
    sys_path_append, external, mret, M_ret.
  intros Hrun. repeat (case_match; simplify_eq/=); done.
Qed.

Lemma setup_stata_requested (s : state) :
  requested (calls (setup_stata env ext s).2) = requested (calls s).
Proof.
  unfold setup_stata, mbind, M_bind, try_except, logger, raise, get_sys_path,
    sys_path_append, external, mret, M_ret.
  repeat (case_match; simplify_eq/=); unfold requested;
    rewrite ?omap_app; cbn; by rewrite ?app_nil_r.
Qed.

(** Without the runtime path or the edition, no call is made at all. *)
Lemma setup_stata_unset (s : state) :
  if_set (PYSTATA_PATH env) = None ∨ if_set (STATA_EDITION env) = None →
  ∃ text s', setup_stata env ext s = (Err (Raised DataLoaderError text NoCause), s')
             ∧ calls s' = calls s.
Proof.
  unfold setup_stata, mbind, M_bind, try_except, logger, raise, get_sys_path,
    sys_path_append, external, mret, M_ret.
  intros [Hp|Hed].
  - rewrite Hp. cbn. eauto.
  - rewrite Hed. destruct (if_set (PYSTATA_PATH env)); cbn; [|by eauto].
    case_bool_decide; cbn; eauto.
Qed.

End MainFacts.

Section LoadData.
Context `{!Py.SetOrder} `{!Py.Repr} (env : environ) (ext : pystata).

(** Whether [setup_stata] succeeds depends on [sys.path] only. *)
Lemma setup_stata_result (s s' : state) :
  sys_path s = sys_path s' →
  (setup_stata env ext s).1 = (setup_stata env ext s').1.
Proof.
  intros Hp.
  rewrite (framed_run _ s (framed_setup_stata env ext)),
    (framed_run _ s' (framed_setup_stata env ext)).
  by rewrite Hp.
Qed.

(** An exception of [setup_stata] leaves [load_data] as it is. *)
Lemma load_data_setup_error (config : ConfigModel) (valuelabel : bool)
    (s : state) (e : exn) (s1 : state) :
  setup_stata env ext (announced s) = (Err e, s1) →
  load_data env ext config valuelabel s = (Err e, s1).
Proof.
  intros Hsetup. pose proof (setup_stata_raises _ _ _ _ _ Hsetup) as Hcls.
  unfold load_data, mbind, M_bind, try_except at 1, logger at 1. cbn.
  fold (announced s). rewrite Hsetup.
  unfold load_data_except, isinstance. rewrite Hcls. done.
Qed.

(** After a successful set-up, [load_data] makes one request, for the
    list of the required variables, and ends as the request ends. *)
Lemma load_data_request (config : ConfigModel) (valuelabel : bool)
    (s : state) (h : stata_module) (s1 : state) :
  setup_stata env ext (announced s) = (Ok h, s1) →
  let vars := Py.set_iter (required_vars config) in
  let asked := calls s1 ++ [PdataframeFromData vars valuelabel] in
  let log1 := log s1 ++ [LogRecord DEBUG ("Requesting variables from Stata: " +:+ Py.repr_list vars)] in
  load_data env ext config valuelabel s =
    match pdataframe_from_data ext vars valuelabel with
    | Ok df =>
        (Ok df,
         State (sys_path s1) asked
           ((log1 ++
             [LogRecord INFO ("Successfully loaded DataFrame from Stata with shape " +:+ repr_shape df +:+ ".")] ++
             [LogRecord DEBUG ("Columns loaded from Stata: " +:+ Py.repr_list (columns df))]) ++
            (if empty df then [LogRecord WARNING "Loaded DataFrame from Stata is empty."] else [])))
    | Err e =>
        if isinstance e DataLoaderError then (Err e, State (sys_path s1) asked log1)
        else (Err (Raised DataLoaderError (request_error_text vars e) (FromExn e)),
              State (sys_path s1) asked (log1 ++ [LogRecord ERROR (request_error_text vars e)]))
    end.
Proof.
  intros Hsetup vars asked log1.
  unfold load_data, mbind, M_bind, try_except at 1, logger at 1. cbn.
  fold (announced s). rewrite Hsetup. cbn.
  unfold try_except, logger, external, mret, M_ret. cbn.
  fold vars. destruct (pdataframe_from_data ext vars valuelabel) as [df|e].
  - subst asked log1.
    destruct (empty df); cbn; rewrite ?app_nil_r, <- ?app_assoc; reflexivity.
  - unfold load_data_except, mbind, M_bind, logger, raise.
    destruct (isinstance e DataLoaderError); reflexivity.
Qed.

End LoadData.

(* ===================================================================== *)
(** ** The entry point on a rejected configuration *)
(* ===================================================================== *)

Section EntryPoint.
Context `{!Py.SetOrder} `{!Py.Repr} (env : environ) (ext : pystata).

Lemma validate_config_raises (raw : gmap string value) (e : exn) :
  validate_config raw = Err e → exn_cls e = ConfigValidationError.
Proof.
  unfold validate_config. destruct (model_validate raw); naive_solver.
Qed.

(** The guard hands every exception on as it is, after one [ERROR] record. *)
Lemma entry_guard_reraises {A} (body : M A) (s : state) (e : exn) (s1 : state) :
  body s = (Err e, s1) →
  ∃ text, entry_guard body s =
            (Err e, State (sys_path s1) (calls s1) (log s1 ++ [LogRecord ERROR text])).
Proof.
  intros Hbody. unfold entry_guard, try_except. rewrite Hbody.
  destruct (isinstance e StataToDfBaseError);
    unfold mbind, M_bind, logger, raise; cbn; eauto.
Qed.

Lemma entry_guard_returns {A} (body : M A) (s : state) (a : A) (s1 : state) :
  body s = (Ok a, s1) → entry_guard body s = (Ok a, s1).
Proof. intros Hbody. unfold entry_guard, try_except. by rewrite Hbody. Qed.

(** A configuration that does not validate stops [stata_to_df] before
    [load_data]: no call reaches the session. *)
Lemma stata_to_df_invalid (raw : gmap string value) (valuelabel : bool) (s : state) (e : exn) :
  validate_config raw = Err e →
  ∃ s', stata_to_df env ext raw valuelabel s = (Err e, s')
        ∧ calls s' = calls s ∧ sys_path s' = sys_path s.
Proof.
  intros Hval. unfold stata_to_df.
  destruct (entry_guard_reraises
              (config ← pure_call (validate_config raw);
               df ← load_data env ext config valuelabel; mret df) s e s) as [text Hrun].
  { unfold mbind, M_bind, pure_call. by rewrite Hval. }
  rewrite Hrun. eauto.
Qed.

End EntryPoint.

(* ===================================================================== *)
(** ** Validation: overlap, acceptance, empty names *)
(* ===================================================================== *)

(** C1, as it holds: for every raw configuration that is structurally valid
    and in which the value variable, or a weight or secondary reference
    that is set and not empty, occurs among the row and column variables,
    [validate_config] raises a [ConfigValidationError] whose message holds
    the [repr] of every overlapping name, and [stata_to_df] raises that
    same error without a single call to the session. *)
Theorem C1_overlap_rejected `{!Py.SetOrder} `{!Py.Repr} (raw : gmap string value) (m : ConfigModel) :
  structural raw = inr m →
  (∃ x, overlaps m x) →
  ∃ text cause,
    validate_config raw = Err (Raised ConfigValidationError text cause) ∧
    (∀ x, overlaps m x → Py.infix_of (Py.repr_str x) text) ∧
    ∀ env ext valuelabel s, ∃ s',
      stata_to_df env ext raw valuelabel s = (Err (Raised ConfigValidationError text cause), s')
      ∧ calls s' = calls s.
Proof.
  intros Hs [x0 Hx0].
  assert (overlap m ≠ ∅) as Hne.
  { apply elem_of_overlap in Hx0. set_solver. }
  assert (validate_config raw =
          Err (Raised ConfigValidationError
                 (validation_failed_text
                    [Pydantic.value_error
                       ("Overlap detected between index variables (row_var, col_var) and core variables (value_var, pweight, secondary_ref): "
                        +:+ repr_set (overlap m))])
                 (FromValidationError
                    [Pydantic.value_error
                       ("Overlap detected between index variables (row_var, col_var) and core variables (value_var, pweight, secondary_ref): "
                        +:+ repr_set (overlap m))]))) as Hval.
  { unfold validate_config, model_validate. rewrite Hs.
    by rewrite (check_variable_names_distinct_overlap m Hne). }
  eexists _, _. split; [exact Hval|]. split.
  - intros x Hx. apply elem_of_overlap in Hx.
    unfold validation_failed_text.
    do 2 apply infix_of_app_l. cbn -[String.append].
    unfold error_line. cbn -[String.append].
    do 5 apply infix_of_app_l.
    by apply repr_set_names.
  - intros env ext valuelabel s.
    destruct (stata_to_df_invalid env ext raw valuelabel s _ Hval) as (s' & Hrun & Hc & _).
    eauto.
Qed.

Lemma C1_overlap_rejected_witness :
  ∃ text cause,
    validate_config (cfg_raw ["w"] ["year"] "w") = Err (Raised ConfigValidationError text cause) ∧
    Py.infix_of "'w'" text.
Proof.
  destruct (C1_overlap_rejected (cfg_raw ["w"] ["year"] "w")
              {| row_var := ["w"]; col_var := ["year"]; value_var := "w";
                 pweight := None; secondary_ref := None |})
    as (text & cause & Hval & Hnames & _).
  - vm_compute. reflexivity.
  - exists "w". split; [apply list_elem_of_In; simpl; auto | left; reflexivity].
  - exists text, cause. split; [exact Hval|].
    apply (Hnames "w"). split; [apply list_elem_of_In; simpl; auto | left; reflexivity].
Defined.

(** C1 as stated fails: a weight that is present (not [None]) and occurs in
    [row_var] passes validation when it is the empty string. *)
Lemma C1_counterexample :
  structural (<["pweight" := VStr ""]> (cfg_raw [""] ["year"] "income"))
  = inr {| row_var := [""]; col_var := ["year"]; value_var := "income";
           pweight := Some ""; secondary_ref := None |}
  ∧ "" ∈ [""] ++ ["year"]
  ∧ validate_config (<["pweight" := VStr ""]> (cfg_raw [""] ["year"] "income"))
    = Ok {| row_var := [""]; col_var := ["year"]; value_var := "income";
            pweight := Some ""; secondary_ref := None |}.
Proof.
  split; [vm_compute; reflexivity|].
  split; [apply list_elem_of_In; simpl; auto|].
  vm_compute. reflexivity.
Qed.

(** With a structural violation next to the overlap, the message reports
    the violation and not the overlap. *)
Example overlap_behind_structural_error :
  validate_config (<["pweight" := VInt 5]> (cfg_raw ["x"] ["y"] "x"))
  = Err (Raised ConfigValidationError
           (validation_failed_text [Pydantic.string_type_error [LField "pweight"]])
           (FromValidationError [Pydantic.string_type_error [LField "pweight"]])).
Proof. vm_compute. reflexivity. Qed.

(** The core variables are not compared with each other: a weight named as
    the value variable validates. *)
Example value_and_weight_share_name :
  validate_config (<["pweight" := VStr "w"]> (cfg_raw ["region"] ["year"] "w"))
  = Ok {| row_var := ["region"]; col_var := ["year"]; value_var := "w";
          pweight := Some "w"; secondary_ref := None |}.
Proof. vm_compute. reflexivity. Qed.

(** An optional entry that is neither a string nor [None] is a structural
    violation. *)
Example ill_typed_weight_rejected :
  validate_config (<["pweight" := VInt 5]> (cfg_raw ["a"] ["b"] "v"))
  = Err (Raised ConfigValidationError
           (validation_failed_text [Pydantic.string_type_error [LField "pweight"]])
           (FromValidationError [Pydantic.string_type_error [LField "pweight"]])).
Proof. vm_compute. reflexivity. Qed.

(** A well-typed mapping whose names are disjoint validates to the model
    with its fields. *)
Lemma validate_config_disjoint `{!Py.SetOrder} `{!Py.Repr} (raw : gmap string value)
    (rows cols : list string) (v : string) (pw sr : option string) :
  raw !! "row_var" = Some (VList (VStr <$> rows)) → rows ≠ [] → NoDup rows →
  raw !! "col_var" = Some (VList (VStr <$> cols)) → cols ≠ [] → NoDup cols →
  raw !! "value_var" = Some (VStr v) →
  input_name (raw !! "pweight") = Some pw →
  input_name (raw !! "secondary_ref") = Some sr →
  (∀ x, x ∈ rows ++ cols → x ≠ v ∧ pw ≠ Some x ∧ sr ≠ Some x) →
  validate_config raw
  = Ok {| row_var := rows; col_var := cols; value_var := v;
          pweight := pw; secondary_ref := sr |}.
Proof.
  intros Hr Hrne Hrnd Hc Hcne Hcnd Hv Hp Hs Hdisj.
  apply validate_config_accepts; [by apply structural_well_typed| |done|done].
  apply set_eq. intros x. rewrite elem_of_overlap. unfold overlaps. cbn.
  split; [|set_solver]. intros [Hin Hcore].
  destruct (Hdisj x Hin) as (? & ? & ?). naive_solver.
Qed.

(** C2: a raw mapping whose [row_var] and [col_var] are non-empty lists of
    strings without repetition, whose [value_var] is a string, whose
    optional entries give the names [pw] and [sr] (none when absent), and
    whose names satisfy the disjointness invariant, validates to the model
    with exactly these fields. *)
Theorem C2_valid_accepted `{!Py.SetOrder} `{!Py.Repr} (raw : gmap string value)
    (rows cols : list string) (v : string) (pw sr : option string) :
  raw !! "row_var" = Some (VList (VStr <$> rows)) → rows ≠ [] → NoDup rows →
  raw !! "col_var" = Some (VList (VStr <$> cols)) → cols ≠ [] → NoDup cols →
  raw !! "value_var" = Some (VStr v) →
  input_name (raw !! "pweight") = Some pw →
  input_name (raw !! "secondary_ref") = Some sr →
  (∀ x, x ∈ rows ++ cols → x ≠ v ∧ pw ≠ Some x ∧ sr ≠ Some x) →
  ∃ m, validate_config raw = Ok m
       ∧ row_var m = rows ∧ col_var m = cols ∧ value_var m = v
       ∧ pweight m = pw ∧ secondary_ref m = sr.
Proof.
  intros Hr Hrne Hrnd Hc Hcne Hcnd Hv Hp Hs Hdisj.
  eexists. split; [by apply validate_config_disjoint|]. done.
Qed.

Lemma C2_valid_accepted_witness :
  ∃ m, validate_config (<["pweight" := VStr "w"]> (cfg_raw ["region"] ["year"] "income")) = Ok m
       ∧ row_var m = ["region"] ∧ col_var m = ["year"] ∧ value_var m = "income"
       ∧ pweight m = Some "w" ∧ secondary_ref m = None.
Proof.
  apply (C2_valid_accepted _ ["region"] ["year"] "income" (Some "w") None);
    try (vm_compute; reflexivity); try discriminate.
  - apply NoDup_singleton.
  - apply NoDup_singleton.
  - intros x Hin. apply list_elem_of_In in Hin. simpl in Hin.
    destruct Hin as [<-|[<-|[]]]; repeat split; discriminate.
Defined.

(** C9, as it holds: with [row_var = ["x"]], [col_var = ["x"]] and any
    other value variable the configuration validates; a name shared by
    the two lists is not an error. *)
Theorem C9_shared_index_name_accepted `{!Py.SetOrder} `{!Py.Repr} (v : string) :
  v ≠ "x" →
  validate_config (cfg_raw ["x"] ["x"] v)
  = Ok {| row_var := ["x"]; col_var := ["x"]; value_var := v;
          pweight := None; secondary_ref := None |}.
Proof.
  intros Hv.
  apply (validate_config_disjoint _ ["x"] ["x"] v None None);
    try done; try apply NoDup_singleton.
  intros x Hin. apply list_elem_of_In in Hin. simpl in Hin.
  destruct Hin as [<-|[<-|[]]]; repeat split; congruence.
Qed.

Lemma C9_shared_index_name_accepted_witness :
  validate_config (cfg_raw ["x"] ["x"] "income")
  = Ok {| row_var := ["x"]; col_var := ["x"]; value_var := "income";
          pweight := None; secondary_ref := None |}.
Proof. apply (C9_shared_index_name_accepted "income"). discriminate. Defined.

(** C9 as stated fails: this configuration raises no validation error. *)
Lemma C9_counterexample :
  ¬ ∃ e, validate_config (cfg_raw ["x"] ["x"] "income") = Err e.
Proof. intros [e He]. vm_compute in He. discriminate He. Qed.

(** The verdict of the after-validator depends on the overlap and on the
    two lists only. *)
Lemma check_variable_names_distinct_verdict `{!Py.SetOrder} `{!Py.Repr} (m1 m2 : ConfigModel) :
  overlap m1 = overlap m2 → row_var m1 = row_var m2 → col_var m1 = col_var m2 →
  match check_variable_names_distinct m1, check_variable_names_distinct m2 with
  | Ok m1', Ok m2' => m1' = m1 ∧ m2' = m2
  | Err e1, Err e2 => e1 = e2
  | _, _ => False
  end.
Proof.
  intros Ho Hr Hc. unfold check_variable_names_distinct.
  rewrite Ho, Hr, Hc. repeat case_bool_decide; done.
Qed.

(** Structural validation of a mapping whose entry [f] is replaced. *)
Lemma structural_pweight_empty `{!Py.SetOrder} `{!Py.Repr} (raw : gmap string value) :
  structural (<["pweight" := VStr ""]> raw)
  = match structural (<["pweight" := VNone]> raw) with
    | inl errors => inl errors
    | inr m => inr (with_pweight (Some "") m)
    end.
Proof.
  unfold structural, Pydantic.required_field, Pydantic.default_field.
  rewrite !lookup_insert_eq, !lookup_insert_ne by done. cbn.
  repeat case_match; simplify_eq/=; done.
Qed.

Lemma structural_secondary_ref_empty `{!Py.SetOrder} `{!Py.Repr} (raw : gmap string value) :
  structural (<["secondary_ref" := VStr ""]> raw)
  = match structural (<["secondary_ref" := VNone]> raw) with
    | inl errors => inl errors
    | inr m => inr (with_secondary_ref (Some "") m)
    end.
Proof.
  unfold structural, Pydantic.required_field, Pydantic.default_field.
  rewrite !lookup_insert_eq, !lookup_insert_ne by done. cbn.
  repeat case_match; simplify_eq/=; done.
Qed.

Lemma structural_pweight_none `{!Py.SetOrder} `{!Py.Repr} (raw : gmap string value) (m : ConfigModel) :
  structural (<["pweight" := VNone]> raw) = inr m → pweight m = None.
Proof.
  unfold structural, Pydantic.required_field, Pydantic.default_field.
  rewrite !lookup_insert_eq, !lookup_insert_ne by done. cbn.
  intros Hs. repeat case_match; simplify_eq/=; done.
Qed.

Lemma structural_secondary_ref_none `{!Py.SetOrder} `{!Py.Repr} (raw : gmap string value) (m : ConfigModel) :
  structural (<["secondary_ref" := VNone]> raw) = inr m → secondary_ref m = None.
Proof.
  unfold structural, Pydantic.required_field, Pydantic.default_field.
  rewrite !lookup_insert_eq, !lookup_insert_ne by done. cbn.
  intros Hs. repeat case_match; simplify_eq/=; done.
Qed.

(** [validate_config] ends alike on two models that the after-validator
    cannot tell apart. *)
Lemma validate_config_verdict `{!Py.SetOrder} `{!Py.Repr} (raw1 raw2 : gmap string value) (f : ConfigModel → ConfigModel) :
  structural raw1 = match structural raw2 with inl es => inl es | inr m => inr (f m) end →
  (∀ m, structural raw2 = inr m →
        overlap (f m) = overlap m ∧ row_var (f m) = row_var m ∧ col_var (f m) = col_var m) →
  same_verdict (validate_config raw1) (validate_config raw2).
Proof.
  intros Hs Hf. unfold validate_config, model_validate. rewrite Hs.
  destruct (structural raw2) as [es|m]; [done|].
  destruct (Hf m eq_refl) as (Ho & Hr & Hc).
  pose proof (check_variable_names_distinct_verdict (f m) m Ho Hr Hc) as Hv.
  destruct (check_variable_names_distinct (f m)) as [m1|e1],
    (check_variable_names_distinct m) as [m2|e2]; try done.
  subst e2. by destruct (isinstance e1 ValueError).
Qed.

(** [load_data] looks at the configuration through its required set. *)
Lemma load_data_required `{!Py.SetOrder} `{!Py.Repr} (env : environ) (ext : pystata)
    (m1 m2 : ConfigModel) (valuelabel : bool) :
  required_vars m1 = required_vars m2 →
  load_data env ext m1 valuelabel = load_data env ext m2 valuelabel.
Proof. intros Hreq. unfold load_data. by rewrite Hreq. Qed.

(** C10: an optional name that is the empty string is treated as absent at
    both stages. Validation of a mapping ends alike with [pweight] (or
    [secondary_ref]) set to [""] and set to [None]; with [""] also in
    [row_var] the mapping validates; and [load_data] requests the same set
    and behaves the same for the name [""] and for no name. *)
Theorem C10_empty_name_absent `{!Py.SetOrder} `{!Py.Repr} :
  (∀ raw, same_verdict (validate_config (<["pweight" := VStr ""]> raw))
                       (validate_config (<["pweight" := VNone]> raw)))
  ∧ (∀ raw, same_verdict (validate_config (<["secondary_ref" := VStr ""]> raw))
                         (validate_config (<["secondary_ref" := VNone]> raw)))
  ∧ validate_config (<["pweight" := VStr ""]> (cfg_raw [""] ["year"] "income"))
    = Ok {| row_var := [""]; col_var := ["year"]; value_var := "income";
            pweight := Some ""; secondary_ref := None |}
  ∧ (∀ m, overlap (with_pweight (Some "") m) = overlap (with_pweight None m)
          ∧ overlap (with_secondary_ref (Some "") m) = overlap (with_secondary_ref None m))
  ∧ (∀ m, required_vars (with_pweight (Some "") m) = required_vars (with_pweight None m)
          ∧ required_vars (with_secondary_ref (Some "") m) = required_vars (with_secondary_ref None m))
  ∧ (∀ env ext m valuelabel,
       load_data env ext (with_pweight (Some "") m) valuelabel
       = load_data env ext (with_pweight None m) valuelabel
       ∧ load_data env ext (with_secondary_ref (Some "") m) valuelabel
         = load_data env ext (with_secondary_ref None m) valuelabel).
Proof.
  split_and!.
  - intros raw.
    apply (validate_config_verdict _ _ (with_pweight (Some ""))).
    + apply structural_pweight_empty.
    + intros m Hm. apply structural_pweight_none in Hm.
      destruct m as [r c v p s]. cbn in Hm. by subst p.
  - intros raw.
    apply (validate_config_verdict _ _ (with_secondary_ref (Some ""))).
    + apply structural_secondary_ref_empty.
    + intros m Hm. apply structural_secondary_ref_none in Hm.
      destruct m as [r c v p s]. cbn in Hm. by subst s.
  - vm_compute. reflexivity.
  - done.
  - done.
  - intros env ext m valuelabel. split; by apply load_data_required.
Qed.

(* ===================================================================== *)
(** ** Loading: the required set, the request, its errors *)
(* ===================================================================== *)

Section Requests.
Context `{!Py.SetOrder} `{!Py.Repr} (env : environ) (ext : pystata).

Lemma elem_of_present_nonempty (x : string) (name : option string) :
  x ∈ present_nonempty name ↔ name = Some x ∧ x ≠ "".
Proof.
  unfold present_nonempty. destruct name as [n|]; [|set_solver].
  case_bool_decide; set_solver.
Qed.

Lemma required_vars_nonempty (m : ConfigModel) :
  required_vars m = required_nonempty m.
Proof.
  apply set_eq. intros x. unfold required_vars, required_nonempty.
  rewrite !elem_of_add_if_set, !elem_of_union, !elem_of_present_nonempty,
    !elem_of_list_to_set, !elem_of_app, list_elem_of_singleton, elem_of_singleton.
  tauto.
Qed.

(** [list(required_vars)] holds each name of the set once. *)
Lemma set_iter_NoDup (s : gset string) : NoDup (Py.set_iter s).
Proof. rewrite Py.set_iter_perm. apply NoDup_elements. Qed.

Lemma list_to_set_set_iter (s : gset string) : list_to_set (Py.set_iter s) = s.
Proof.
  apply set_eq. intros x.
  by rewrite elem_of_list_to_set, Py.set_iter_perm, elem_of_elements.
Qed.

Lemma requested_snoc (cs : list call) (vars : list string) (valuelabel : bool) :
  requested (cs ++ [PdataframeFromData vars valuelabel]) = requested cs ++ [vars].
Proof. unfold requested. by rewrite omap_app. Qed.

(** The data requests of [load_data]: none when the set-up fails, one for
    the required variables when it succeeds. *)
Lemma load_data_requested (m : ConfigModel) (valuelabel : bool) (s : state) :
  requested (calls (load_data env ext m valuelabel s).2)
  = match (setup_stata env ext s).1 with
    | Ok _ => requested (calls s) ++ [Py.set_iter (required_vars m)]
    | Err _ => requested (calls s)
    end.
Proof.
  rewrite (setup_stata_result env ext s (announced s) eq_refl).
  pose proof (setup_stata_requested env ext (announced s)) as Hreq.
  destruct (setup_stata env ext (announced s)) as [[h|e] s1] eqn:Hsetup; cbn in *.
  - rewrite (load_data_request env ext m valuelabel s h s1 Hsetup).
    destruct (pdataframe_from_data ext _ valuelabel) as [df|e]; cbn;
      [|destruct (isinstance e DataLoaderError); cbn];
      by rewrite requested_snoc, Hreq.
  - by rewrite (load_data_setup_error env ext m valuelabel s e s1 Hsetup).
Qed.

(** [load_data] raises nothing but [DataLoaderError]. *)
Lemma load_data_raises (m : ConfigModel) (valuelabel : bool) (s : state) (e : exn) :
  (load_data env ext m valuelabel s).1 = Err e → exn_cls e = DataLoaderError.
Proof.
  destruct (setup_stata env ext (announced s)) as [[h|e0] s1] eqn:Hsetup.
  - rewrite (load_data_request env ext m valuelabel s h s1 Hsetup).
    destruct (pdataframe_from_data ext _ valuelabel) as [df|e1]; cbn; [done|].
    destruct (isinstance e1 DataLoaderError) eqn:Hinst; cbn; [|naive_solver].
    intros [= <-]. unfold isinstance, issubclass in Hinst.
    destruct (exn_cls e1); by try discriminate Hinst.
  - rewrite (load_data_setup_error env ext m valuelabel s e0 s1 Hsetup). cbn.
    intros [= <-]. by eapply setup_stata_raises.
Qed.

(** Whatever [stata_to_df] raises is a [ConfigValidationError] or a
    [DataLoaderError]. *)
Lemma stata_to_df_raises (raw : gmap string value) (valuelabel : bool) (s : state) (e : exn) :
  (stata_to_df env ext raw valuelabel s).1 = Err e →
  exn_cls e = ConfigValidationError ∨ exn_cls e = DataLoaderError.
Proof.
  unfold stata_to_df.
  destruct ((config ← pure_call (validate_config raw);
             df ← load_data env ext config valuelabel; mret df) s) as [[df|e0] s1] eqn:Hbody.
  - by rewrite (entry_guard_returns _ _ _ _ Hbody).
  - destruct (entry_guard_reraises _ _ _ _ Hbody) as [text ->]. cbn. intros [= <-].
    unfold mbind, M_bind, pure_call, mret, M_ret in Hbody.
    destruct (validate_config raw) as [m|e1] eqn:Hval.
    + right. apply (load_data_raises m valuelabel s).
      destruct (load_data env ext m valuelabel s) as [[df|e2] s2]; by simplify_eq/=.
    + left. apply (validate_config_raises raw). by simplify_eq/=.
Qed.

End Requests.

(** C3, as it holds: the variables that [load_data] requests from the
    session are exactly the names of [row_var] and [col_var], the value
    variable, and the weight and secondary reference that are set and not
    empty; the list requested holds each of them once; and the set is the
    same for every ordering of [row_var] and of [col_var]. *)
Theorem C3_required_set `{!Py.SetOrder} `{!Py.Repr} (env : environ) (ext : pystata)
    (m : ConfigModel) (valuelabel : bool) (s : state) :
  required_vars m = required_nonempty m
  ∧ (∀ vars, vars ∈ requested (calls (load_data env ext m valuelabel s).2) →
             vars ∈ requested (calls s)
             ∨ (NoDup vars ∧ list_to_set vars = required_nonempty m))
  ∧ ((setup_stata env ext s).1 = Ok PystataStata →
     requested (calls (load_data env ext m valuelabel s).2)
     = requested (calls s) ++ [Py.set_iter (required_vars m)])
  ∧ (∀ m', row_var m' ≡ₚ row_var m → col_var m' ≡ₚ col_var m →
           value_var m' = value_var m → pweight m' = pweight m →
           secondary_ref m' = secondary_ref m →
           required_vars m' = required_vars m).
Proof.
  split_and!.
  - apply required_vars_nonempty.
  - intros vars. rewrite load_data_requested.
    destruct (setup_stata env ext s).1; [|by left].
    rewrite elem_of_app, list_elem_of_singleton. intros [?| ->]; [by left|right].
    split; [apply set_iter_NoDup|].
    by rewrite list_to_set_set_iter, required_vars_nonempty.
  - intros Hok. by rewrite load_data_requested, Hok.
  - intros m' Hr Hc Hv Hp Hs. unfold required_vars.
    rewrite Hv, Hp, Hs. do 2 f_equal.
    apply set_eq. intros x. rewrite !elem_of_list_to_set, !elem_of_app.
    by rewrite Hr, Hc.
Qed.

Lemma C3_required_set_witness :
  required_vars {| row_var := ["sex"; "region"]; col_var := ["year"]; value_var := "income";
                   pweight := Some "w"; secondary_ref := None |}
  = required_vars {| row_var := ["region"; "sex"]; col_var := ["year"]; value_var := "income";
                     pweight := Some "w"; secondary_ref := None |}
  ∧ requested (calls (load_data env_ready (session (Ok no_rows))
                        {| row_var := ["region"; "sex"]; col_var := ["year"];
                           value_var := "income"; pweight := Some "w";
                           secondary_ref := None |} true fresh).2)
    = [Py.set_iter (required_vars
                      {| row_var := ["region"; "sex"]; col_var := ["year"];
                         value_var := "income"; pweight := Some "w";
                         secondary_ref := None |})].
Proof.
  destruct (C3_required_set env_ready (session (Ok no_rows))
              {| row_var := ["region"; "sex"]; col_var := ["year"]; value_var := "income";
                 pweight := Some "w"; secondary_ref := None |} true fresh)
    as (_ & _ & Hreq & Hperm).
  split.
  - apply Hperm; try reflexivity. apply perm_swap.
  - apply Hreq. vm_compute. reflexivity.
Defined.

(** C3 as stated fails: a weight that is present (not [None]) but empty is
    in the set of the specification and not in the set requested. *)
Lemma C3_counterexample :
  pweight blank_weight = Some ""
  ∧ "" ∈ spec_required blank_weight
  ∧ ("" ∉ required_vars blank_weight)
  ∧ requested (calls (load_data env_ready (session (Ok no_rows)) blank_weight true fresh).2)
    = [["a"; "v"; "b"]].
Proof.
  split_and!.
  - reflexivity.
  - unfold spec_required, blank_weight. cbn. set_solver.
  - unfold required_vars, blank_weight. cbn. set_solver.
  - vm_compute. reflexivity.
Qed.

(** C5: when the set-up has succeeded and the request raises [e],
    [load_data] raises [e] itself if [e] is a [DataLoaderError], and
    otherwise a [DataLoaderError] raised from [e] whose message holds the
    [repr] of the list of requested variables and the text of [e]. *)
Theorem C5_request_error_wrapped `{!Py.SetOrder} `{!Py.Repr} (env : environ) (ext : pystata)
    (m : ConfigModel) (valuelabel : bool) (s : state) (e : exn) :
  (setup_stata env ext s).1 = Ok PystataStata →
  pdataframe_from_data ext (Py.set_iter (required_vars m)) valuelabel = Err e →
  if isinstance e DataLoaderError
  then (load_data env ext m valuelabel s).1 = Err e
  else ∃ msg,
         (load_data env ext m valuelabel s).1 = Err (Raised DataLoaderError msg (FromExn e))
         ∧ Py.infix_of (Py.repr_list (Py.set_iter (required_vars m))) msg
         ∧ Py.infix_of (exn_text e) msg.
Proof.
  intros Hok Hreq.
  rewrite (setup_stata_result env ext s (announced s) eq_refl) in Hok.
  destruct (setup_stata env ext (announced s)) as [[h|e0] s1] eqn:Hsetup; [|done].
  rewrite (load_data_request env ext m valuelabel s h s1 Hsetup), Hreq.
  destruct (isinstance e DataLoaderError); [done|].
  eexists. split; [done|]. unfold request_error_text. split.
  - apply infix_of_app_l, infix_of_app_r, infix_of_refl.
  - do 3 apply infix_of_app_l. apply infix_of_refl.
Qed.

Lemma C5_request_error_wrapped_witness :
  ∃ msg,
    (load_data env_ready
       (session (Err (Raised (OtherException "SystemError") "variable w not found" NoCause)))
       blank_weight true fresh).1
    = Err (Raised DataLoaderError msg
             (FromExn (Raised (OtherException "SystemError") "variable w not found" NoCause)))
    ∧ Py.infix_of (Py.repr_list (Py.set_iter (required_vars blank_weight))) msg
    ∧ Py.infix_of "variable w not found" msg.
Proof.
  apply (C5_request_error_wrapped env_ready
           (session (Err (Raised (OtherException "SystemError") "variable w not found" NoCause)))
           blank_weight true fresh
           (Raised (OtherException "SystemError") "variable w not found" NoCause)).
  - vm_compute. reflexivity.
  - reflexivity.
Defined.

(** A [DataLoaderError] of the set-up leaves [load_data] unchanged. *)
Lemma load_data_setup_error_unchanged `{!Py.SetOrder} `{!Py.Repr} (env : environ) (ext : pystata)
    (m : ConfigModel) (valuelabel : bool) (s : state) (e : exn) :
  (setup_stata env ext s).1 = Err e →
  (load_data env ext m valuelabel s).1 = Err e.
Proof.
  intros Herr.
  rewrite (setup_stata_result env ext s (announced s) eq_refl) in Herr.
  destruct (setup_stata env ext (announced s)) as [[h|e0] s1] eqn:Hsetup; [done|].
  cbn in Herr. simplify_eq.
  by rewrite (load_data_setup_error env ext m valuelabel s e s1 Hsetup).
Qed.

(** C6: without the runtime path, or without the edition, [load_data]
    raises a [DataLoaderError] and no call is made to pystata, so no data
    request either. *)
Theorem C6_bootstrap_absent `{!Py.SetOrder} `{!Py.Repr} (env : environ) (ext : pystata)
    (m : ConfigModel) (valuelabel : bool) (s : state) :
  PYSTATA_PATH env = None ∨ STATA_EDITION env = None →
  ∃ text s',
    load_data env ext m valuelabel s = (Err (Raised DataLoaderError text NoCause), s')
    ∧ calls s' = calls s.
Proof.
  intros Habs.
  destruct (setup_stata_unset env ext (announced s)) as (text & s' & Hsetup & Hcalls).
  { destruct Habs as [-> | ->]; [by left|by right]. }
  exists text, s'. split; [|done].
  by apply load_data_setup_error.
Qed.

Lemma C6_bootstrap_absent_witness :
  ∃ text s',
    load_data {| PYSTATA_PATH := Some "/opt/stata/utilities"; STATA_EDITION := None |}
      (session (Ok no_rows)) blank_weight true fresh
    = (Err (Raised DataLoaderError text NoCause), s')
    ∧ calls s' = calls fresh.
Proof.
  apply (C6_bootstrap_absent
           {| PYSTATA_PATH := Some "/opt/stata/utilities"; STATA_EDITION := None |}
           (session (Ok no_rows)) blank_weight true fresh).
  right. reflexivity.
Defined.

(** C8: when the set-up has succeeded and the session answers the request
    with a table without rows, [load_data] returns that table, and the last
    record of the log is the warning that the table is empty. *)
Theorem C8_empty_table_returned `{!Py.SetOrder} `{!Py.Repr} (env : environ) (ext : pystata)
    (m : ConfigModel) (valuelabel : bool) (s : state) (df : DataFrame) :
  (setup_stata env ext s).1 = Ok PystataStata →
  pdataframe_from_data ext (Py.set_iter (required_vars m)) valuelabel = Ok df →
  rows df = [] →
  ∃ s', load_data env ext m valuelabel s = (Ok df, s')
        ∧ last (log s') = Some (LogRecord WARNING "Loaded DataFrame from Stata is empty.").
Proof.
  intros Hok Hreq Hrows.
  rewrite (setup_stata_result env ext s (announced s) eq_refl) in Hok.
  destruct (setup_stata env ext (announced s)) as [[h|e0] s1] eqn:Hsetup; [|done].
  rewrite (load_data_request env ext m valuelabel s h s1 Hsetup), Hreq.
  assert (empty df = true) as ->.
  { unfold empty. by rewrite Hrows. }
  eexists. split; [done|]. cbn. by rewrite last_snoc.
Qed.

Lemma C8_empty_table_returned_witness :
  ∃ s', load_data env_ready (session (Ok no_rows)) blank_weight true fresh = (Ok no_rows, s')
        ∧ last (log s') = Some (LogRecord WARNING "Loaded DataFrame from Stata is empty.").
Proof.
  apply (C8_empty_table_returned env_ready (session (Ok no_rows)) blank_weight true fresh no_rows).
  - vm_compute. reflexivity.
  - reflexivity.
  - reflexivity.
Defined.

(* ===================================================================== *)
(** ** Structural validation reports every violation *)
(* ===================================================================== *)

Section Structural.
Context `{!Py.SetOrder} `{!Py.Repr}.












End Structural.

Section Aggregation.
Context `{!Py.SetOrder} `{!Py.Repr}.




(** Every reported error has its line in the message. *)
Lemma validation_failed_text_line (errors : list error_details) (e : error_details) :
  e ∈ errors → Py.infix_of (error_line e) (validation_failed_text errors).
Proof.
  intros Hin. unfold validation_failed_text.
  do 2 apply infix_of_app_l. apply infix_of_join.
  by apply list_elem_of_fmap_2.
Qed.



End Aggregation.


(* ===================================================================== *)
(** ** More of config.py: acceptance, duplicates, undeclared keys *)
(* ===================================================================== *)

Section Acceptance.
Context `{!Py.SetOrder} `{!Py.Repr}.

(** A list field that validates is not empty. *)
Lemma list_field_inr (raw : gmap string value) (f : string) (names : list string) :
  Pydantic.required_field (Pydantic.validate_list_str 1) raw f = inr names → names ≠ [].
Proof.
  unfold Pydantic.required_field, Pydantic.validate_list_str.
  destruct (raw !! f) as [v|]; [|done].
  destruct v as [| | | |items|]; try done.
  destruct (Pydantic.validate_items [LField f] 0 items) as [es|ss]; [done|].
  case_decide; [done|]. intros [= <-]. destruct ss; cbn in *; [lia|done].
Qed.

Lemma structural_nonempty (raw : gmap string value) (m : ConfigModel) :
  structural raw = inr m → row_var m ≠ [] ∧ col_var m ≠ [].
Proof.
  unfold structural.
  destruct (Pydantic.required_field (Pydantic.validate_list_str 1) raw "row_var")
    as [e1|r] eqn:H1;
  destruct (Pydantic.required_field (Pydantic.validate_list_str 1) raw "col_var")
    as [e2|c] eqn:H2;
  destruct (Pydantic.required_field Pydantic.validate_str raw "value_var") as [e3|v];
  destruct (Pydantic.default_field Pydantic.validate_optional_str None raw "pweight")
    as [e4|p];
  destruct (Pydantic.default_field Pydantic.validate_optional_str None raw "secondary_ref")
    as [e5|s]; try done.
  intros [= <-]. cbn. split; by eapply list_field_inr.
Qed.

(** What [validate_config] returns is the structurally parsed model, and
    the after-validator has accepted it. *)
Lemma validate_config_ok_inv (raw : gmap string value) (m : ConfigModel) :
  validate_config raw = Ok m →
  structural raw = inr m ∧ overlap m = ∅ ∧ NoDup (row_var m) ∧ NoDup (col_var m).
Proof.
  unfold validate_config, model_validate.
  destruct (structural raw) as [es|m0]; [done|].
  destruct (check_variable_names_distinct m0) as [m'|e] eqn:Hcheck.
  - intros [= <-]. pose proof (check_variable_names_distinct_self _ _ Hcheck) as ->.
    split; [done|]. by apply check_variable_names_distinct_ok.
  - by destruct (isinstance e ValueError).
Qed.

(** The text of the after-validator for a repeated name, when no name
    overlaps. *)
Lemma check_variable_names_distinct_row_dup (m : ConfigModel) :
  overlap m = ∅ → ¬ NoDup (row_var m) →
  check_variable_names_distinct m
  = Err (Raised ValueError
           ("Duplicate variable names found within row_var: " +:+ Py.repr_list (row_var m))
           NoCause).
Proof.
  intros Ho Hdup. unfold check_variable_names_distinct.
  rewrite bool_decide_false by (by intros ?).
  rewrite bool_decide_true; [done|]. by rewrite length_eq_size_NoDup.
Qed.

Lemma check_variable_names_distinct_col_dup (m : ConfigModel) :
  overlap m = ∅ → NoDup (row_var m) → ¬ NoDup (col_var m) →
  check_variable_names_distinct m
  = Err (Raised ValueError
           ("Duplicate variable names found within col_var: " +:+ Py.repr_list (col_var m))
           NoCause).
Proof.
  intros Ho Hrow Hdup. unfold check_variable_names_distinct.
  rewrite bool_decide_false by (by intros ?).
  rewrite bool_decide_false by (intros Hne; by apply Hne, length_eq_size_NoDup).
  rewrite bool_decide_true; [done|]. by rewrite length_eq_size_NoDup.
Qed.

(** A [ValueError] of the after-validator, as [validate_config] raises it. *)
Lemma validate_config_value_error (raw : gmap string value) (m : ConfigModel) (text : string) :
  structural raw = inr m →
  check_variable_names_distinct m = Err (Raised ValueError text NoCause) →
  validate_config raw
  = Err (Raised ConfigValidationError
           (validation_failed_text [Pydantic.value_error text])
           (FromValidationError [Pydantic.value_error text])).
Proof.
  intros Hs Hcheck. unfold validate_config, model_validate. by rewrite Hs, Hcheck.
Qed.

(** Structural validation reads the declared keys only. *)
Lemma structural_undeclared (raw : gmap string value) (k : string) (v : value) :
  k ∉ declared → structural (<[k := v]> raw) = structural raw.
Proof.
  intros Hk. unfold structural, Pydantic.required_field, Pydantic.default_field.
  rewrite !lookup_insert_ne; [done|..]; intros ->; apply Hk; unfold declared; set_solver.
Qed.

End Acceptance.

(** X1: [validate_config] returns a model exactly when the mapping parses
    structurally to that model, no core variable is among the index
    variables, and neither [row_var] nor [col_var] repeats a name. *)
Theorem X1_accepts_iff `{!Py.SetOrder} `{!Py.Repr} (raw : gmap string value) (m : ConfigModel) :
  validate_config raw = Ok m ↔
  structural raw = inr m ∧ overlap m = ∅ ∧ NoDup (row_var m) ∧ NoDup (col_var m).
Proof.
  split; [apply validate_config_ok_inv|].
  intros (Hs & Ho & Hr & Hc). by apply validate_config_accepts.
Qed.

Lemma X1_accepts_iff_witness :
  validate_config (cfg_raw ["region"] ["year"] "income")
  = Ok {| row_var := ["region"]; col_var := ["year"]; value_var := "income";
          pweight := None; secondary_ref := None |}.
Proof.
  apply (proj2 (X1_accepts_iff (cfg_raw ["region"] ["year"] "income")
                  {| row_var := ["region"]; col_var := ["year"]; value_var := "income";
                     pweight := None; secondary_ref := None |})).
  split_and!.
  - vm_compute. reflexivity.
  - vm_compute. reflexivity.
  - apply NoDup_singleton.
  - apply NoDup_singleton.
Defined.

(** X2: every model that [validate_config] returns has non-empty
    [row_var] and [col_var] without repeated names, and neither its value
    variable nor a non-empty weight or secondary reference is among its
    row and column variables. *)
Theorem X2_validated_invariants `{!Py.SetOrder} `{!Py.Repr} (raw : gmap string value) (m : ConfigModel) :
  validate_config raw = Ok m →
  row_var m ≠ [] ∧ col_var m ≠ []
  ∧ NoDup (row_var m) ∧ NoDup (col_var m)
  ∧ (value_var m ∉ row_var m ++ col_var m)
  ∧ (∀ p, pweight m = Some p → p ≠ "" → p ∉ row_var m ++ col_var m)
  ∧ (∀ r, secondary_ref m = Some r → r ≠ "" → r ∉ row_var m ++ col_var m).
Proof.
  intros Hok. destruct (validate_config_ok_inv raw m Hok) as (Hs & Ho & Hr & Hc).
  destruct (structural_nonempty raw m Hs) as [Hrne Hcne].
  assert (∀ x, ¬ overlaps m x) as Hno.
  { intros x Hx. apply elem_of_overlap in Hx. rewrite Ho in Hx. set_solver. }
  split_and!; try done.
  - intros Hin. apply (Hno (value_var m)). split; [done|by left].
  - intros p Hp Hne Hin. apply (Hno p). split; [done|]. right. by left.
  - intros r Hsr Hne Hin. apply (Hno r). split; [done|]. right. by right.
Qed.

Lemma X2_validated_invariants_witness :
  ["region"] ≠ [] ∧ ["year"] ≠ []
  ∧ NoDup ["region"] ∧ NoDup ["year"]
  ∧ ("income" ∉ ["region"] ++ ["year"])
  ∧ (∀ p, Some "w" = Some p → p ≠ "" → p ∉ ["region"] ++ ["year"])
  ∧ (∀ r, None = Some r → r ≠ "" → r ∉ ["region"] ++ ["year"]).
Proof.
  apply (X2_validated_invariants
           (<["pweight" := VStr "w"]> (cfg_raw ["region"] ["year"] "income"))
           {| row_var := ["region"]; col_var := ["year"]; value_var := "income";
              pweight := Some "w"; secondary_ref := None |}).
  vm_compute. reflexivity.
Defined.

(** The message for a single [ValueError] of the after-validator, letter
    by letter. *)
Lemma validation_failed_text_value_error `{!Py.Repr} (text : string) :
  validation_failed_text [Pydantic.value_error text]
  = "Configuration validation failed:" +:+ Py.nl +:+ "- (): Value error, " +:+ text.
Proof. reflexivity. Qed.

(** X3: a structurally valid mapping without overlap whose [row_var]
    repeats a name is rejected with a [ConfigValidationError] whose
    message is the fixed head and the one line
    [- (): Value error, Duplicate variable names found within row_var: ]
    followed by the [repr] of the list. *)
Theorem X3_duplicate_row_var `{!Py.SetOrder} `{!Py.Repr} (raw : gmap string value) (m : ConfigModel) :
  structural raw = inr m → overlap m = ∅ → ¬ NoDup (row_var m) →
  validate_config raw
  = Err (Raised ConfigValidationError
           ("Configuration validation failed:" +:+ Py.nl +:+
            "- (): Value error, Duplicate variable names found within row_var: " +:+
            Py.repr_list (row_var m))
           (FromValidationError
              [ErrorDetails "value_error" []
                 ("Value error, Duplicate variable names found within row_var: " +:+
                  Py.repr_list (row_var m))])).
Proof.
  intros Hs Ho Hdup.
  rewrite (validate_config_value_error raw m _ Hs
             (check_variable_names_distinct_row_dup m Ho Hdup)).
  by rewrite validation_failed_text_value_error.
Qed.

Lemma X3_duplicate_row_var_witness :
  validate_config (cfg_raw ["x"; "x"] ["y"] "v")
  = Err (Raised ConfigValidationError
           ("Configuration validation failed:" +:+ Py.nl +:+
            "- (): Value error, Duplicate variable names found within row_var: " +:+
            Py.repr_list ["x"; "x"])
           (FromValidationError
              [ErrorDetails "value_error" []
                 ("Value error, Duplicate variable names found within row_var: " +:+
                  Py.repr_list ["x"; "x"])])).
Proof.
  apply (X3_duplicate_row_var (cfg_raw ["x"; "x"] ["y"] "v")
           {| row_var := ["x"; "x"]; col_var := ["y"]; value_var := "v";
              pweight := None; secondary_ref := None |}).
  - vm_compute. reflexivity.
  - vm_compute. reflexivity.
  - intros Hnd. apply NoDup_cons in Hnd as [Hnin _]. apply Hnin. by left.
Defined.

(** X4: with [row_var] free of repetition, a repeated name in [col_var] is
    rejected in the same way, the line naming [col_var]. *)
Theorem X4_duplicate_col_var `{!Py.SetOrder} `{!Py.Repr} (raw : gmap string value) (m : ConfigModel) :
  structural raw = inr m → overlap m = ∅ → NoDup (row_var m) → ¬ NoDup (col_var m) →
  validate_config raw
  = Err (Raised ConfigValidationError
           ("Configuration validation failed:" +:+ Py.nl +:+
            "- (): Value error, Duplicate variable names found within col_var: " +:+
            Py.repr_list (col_var m))
           (FromValidationError
              [ErrorDetails "value_error" []
                 ("Value error, Duplicate variable names found within col_var: " +:+
                  Py.repr_list (col_var m))])).
Proof.
  intros Hs Ho Hrow Hdup.
  rewrite (validate_config_value_error raw m _ Hs
             (check_variable_names_distinct_col_dup m Ho Hrow Hdup)).
  by rewrite validation_failed_text_value_error.
Qed.

Lemma X4_duplicate_col_var_witness :
  validate_config (cfg_raw ["x"] ["y"; "y"] "v")
  = Err (Raised ConfigValidationError
           ("Configuration validation failed:" +:+ Py.nl +:+
            "- (): Value error, Duplicate variable names found within col_var: " +:+
            Py.repr_list ["y"; "y"])
           (FromValidationError
              [ErrorDetails "value_error" []
                 ("Value error, Duplicate variable names found within col_var: " +:+
                  Py.repr_list ["y"; "y"])])).
Proof.
  apply (X4_duplicate_col_var (cfg_raw ["x"] ["y"; "y"] "v")
           {| row_var := ["x"]; col_var := ["y"; "y"]; value_var := "v";
              pweight := None; secondary_ref := None |}).
  - vm_compute. reflexivity.
  - vm_compute. reflexivity.
  - apply NoDup_singleton.
  - intros Hnd. apply NoDup_cons in Hnd as [Hnin _]. apply Hnin. by left.
Defined.

(** X5: a key that [ConfigModel] does not declare, such as [sdc_rules],
    changes nothing: with and without it [validate_config] gives the same
    result. *)
Theorem X5_undeclared_key_ignored `{!Py.SetOrder} `{!Py.Repr} (raw : gmap string value) (k : string) (v : value) :
  k ∉ declared →
  validate_config (<[k := v]> raw) = validate_config raw.
Proof.
  intros Hk. unfold validate_config, model_validate.
  by rewrite (structural_undeclared raw k v Hk).
Qed.

Lemma X5_undeclared_key_ignored_witness :
  validate_config (<["sdc_rules" := VDict [("threshold", VInt 10)]]> (cfg_raw ["x"] ["y"] "v"))
  = validate_config (cfg_raw ["x"] ["y"] "v").
Proof.
  apply (X5_undeclared_key_ignored (cfg_raw ["x"] ["y"] "v") "sdc_rules"
           (VDict [("threshold", VInt 10)])).
  intros Hin. apply list_elem_of_In in Hin. simpl in Hin.
  repeat (destruct Hin as [Hin|Hin]; [discriminate Hin|]). exact Hin.
Defined.

(* ===================================================================== *)
(** ** More of __init__.py: the set-up of the session *)
(* ===================================================================== *)

Section PathAdded.

Lemma path_added_elem (x : string) (p : list string) : x ∈ path_added x p.
Proof.
  unfold path_added. case_bool_decide as Hx; [set_solver|].
  by destruct (decide (x ∈ p)).
Qed.

Lemma path_added_id (x : string) (p : list string) : x ∈ p → path_added x p = p.
Proof. intros Hx. unfold path_added. by rewrite bool_decide_false by (by intros ?). Qed.

Lemma path_added_prefix (x : string) (p : list string) : p `prefix_of` path_added x p.
Proof. unfold path_added. case_bool_decide; [by apply prefix_app_r|done]. Qed.

Lemma path_added_subseteq (x y : string) (p : list string) : y ∈ p → y ∈ path_added x p.
Proof. unfold path_added. case_bool_decide; set_solver. Qed.

Lemma path_added_NoDup (x : string) (p : list string) : NoDup p → NoDup (path_added x p).
Proof.
  intros Hnd. unfold path_added. case_bool_decide as Hx; [|done].
  apply NoDup_app. split_and!; [done|set_solver|apply NoDup_singleton].
Qed.

End PathAdded.

Section SetUp.
Context (env : environ) (ext : pystata).

(** [sys.path] after [setup_stata], whatever its outcome. *)
Lemma setup_stata_sys_path (s : state) :
  sys_path (setup_stata env ext s).2
  = match if_set (PYSTATA_PATH env) with
    | None => sys_path s
    | Some path =>
        match if_set (STATA_EDITION env) with
        | None => path_added path (sys_path s)
        | Some edition => path_added edition (path_added path (sys_path s))
        end
    end.
Proof.
  unfold setup_stata, mbind, M_bind, try_except, logger, raise, get_sys_path,
    sys_path_append, external, mret, M_ret, path_added.
  repeat (case_match; simplify_eq/=); done.
Qed.

(** The outcome of [setup_stata] and the calls it makes, when the path and
    the edition are set: the three steps in order, up to the first that
    raises. *)
Lemma setup_stata_outcome (s : state) (path edition : string) :
  if_set (PYSTATA_PATH env) = Some path →
  if_set (STATA_EDITION env) = Some edition →
  let sp := path_added edition (path_added path (sys_path s)) in
  let wrapped e := Err (Raised DataLoaderError (setup_failed_text path e) (FromExn e)) in
  (setup_stata env ext s).1
  = match import_config ext sp with
    | Err e => wrapped e
    | Ok _ =>
        match config_init ext edition with
        | Err e => wrapped e
        | Ok _ =>
            match import_stata ext sp with
            | Err e => wrapped e
            | Ok _ => Ok PystataStata
            end
        end
    end
  ∧ calls (setup_stata env ext s).2
    = calls s ++
      match import_config ext sp with
      | Err _ => [ImportConfig]
      | Ok _ =>
          match config_init ext edition with
          | Err _ => [ImportConfig; ConfigInit edition]
          | Ok _ => [ImportConfig; ConfigInit edition; ImportStata]
          end
      end.
Proof.
  intros Hp Hed sp wrapped. subst sp wrapped.
  unfold setup_stata, mbind, M_bind, try_except, logger, raise, get_sys_path,
    sys_path_append, external, mret, M_ret, path_added, setup_failed_text,
    import_failed_text, init_failed_text.
  rewrite Hp, Hed. cbn.
  repeat (case_match; simplify_eq/=); rewrite <- ?app_assoc; done.
Qed.

(** A successful set-up logs nothing at the level of a warning or above. *)
Lemma setup_stata_quiet (p : list string) (h : stata_module) (s1 : state) :
  setup_stata env ext (State p [] []) = (Ok h, s1) → Forall quiet (log s1).
Proof.
  unfold setup_stata, mbind, M_bind, try_except, logger, raise, get_sys_path,
    sys_path_append, external, mret, M_ret.
  intros Hrun. repeat (case_match; simplify_eq/=);
    repeat (apply Forall_cons; split; [by (left + right)|]); apply Forall_nil_2.
Qed.

End SetUp.

Section SetUpRuns.
Context `{!Py.SetOrder} `{!Py.Repr} (env : environ) (ext : pystata).

(** A successful set-up, as [load_data] sees it. *)
Lemma setup_stata_announced (s : state) (h : stata_module) :
  (setup_stata env ext s).1 = Ok h →
  ∃ s1 dc dl,
    setup_stata env ext (announced s) = (Ok h, s1)
    ∧ calls s1 = calls s ++ dc ∧ requested dc = []
    ∧ log s1 = log s ++ dl ∧ Forall quiet dl.
Proof.
  intros Hok. rewrite (setup_stata_result env ext s (announced s) eq_refl) in Hok.
  pose proof (setup_stata_requested env ext (State (sys_path s) [] [])) as Hreq.
  rewrite (framed_run _ (announced s) (framed_setup_stata env ext)) in Hok |- *.
  cbn [sys_path announced] in *.
  destruct (setup_stata env ext (State (sys_path s) [] [])) as [[h0|e0] s0] eqn:Hrun;
    cbn in Hok; [|done].
  destruct h, h0. unfold shift. cbn in *.
  eexists _, (calls s0), (_ :: log s0). split; [reflexivity|]. cbn.
  split_and!; [done|done|by rewrite <- app_assoc|].
  apply Forall_cons. split; [by right|]. by eapply setup_stata_quiet.
Qed.

(** The first [except] clause of the entry point, with its record. *)
Lemma entry_guard_taxonomy {A} (body : M A) (s : state) (e : exn) (s1 : state) :
  body s = (Err e, s1) → isinstance e StataToDfBaseError = true →
  entry_guard body s
  = (Err e, State (sys_path s1) (calls s1)
              (log s1 ++ [LogRecord ERROR
                            ("Error in configuration or data loading: " +:+ exn_text e)])).
Proof.
  intros Hbody Htax. unfold entry_guard, try_except. rewrite Hbody, Htax. done.
Qed.

(** The body of [stata_to_df] on a configuration that validates. *)
Lemma stata_to_df_body (raw : gmap string value) (m : ConfigModel)
    (valuelabel : bool) (s : state) :
  validate_config raw = Ok m →
  (config ← pure_call (validate_config raw);
   df ← load_data env ext config valuelabel; mret df) s
  = load_data env ext m valuelabel s.
Proof.
  intros Hval. unfold mbind, M_bind, pure_call, mret, M_ret. rewrite Hval.
  by destruct (load_data env ext m valuelabel s) as [[df|e] s'].
Qed.

Lemma framed_entry_guard {A} (body : M A) : framed body → framed (entry_guard body).
Proof. intros Hbody. unfold entry_guard. repeat framed_step. Qed.

Lemma framed_stata_to_df (raw : gmap string value) (valuelabel : bool) :
  framed (stata_to_df env ext raw valuelabel).
Proof.
  unfold stata_to_df. apply framed_entry_guard.
  repeat framed_step. apply framed_load_data.
Qed.

End SetUpRuns.

(** X6: with the path and the edition set, and pystata importing and
    initialising without error, [setup_stata] returns the handle after
    exactly the calls import config, init with the edition, import stata,
    in this order; [sys.path] then holds the path and the edition, and
    nothing is logged at the level of a warning or above. *)
Theorem X6_setup_stata_success (env : environ) (ext : pystata) (s : state)
    (path edition : string) :
  if_set (PYSTATA_PATH env) = Some path →
  if_set (STATA_EDITION env) = Some edition →
  import_config ext (path_added edition (path_added path (sys_path s))) = Ok () →
  config_init ext edition = Ok () →
  import_stata ext (path_added edition (path_added path (sys_path s))) = Ok () →
  ∃ s', setup_stata env ext s = (Ok PystataStata, s')
        ∧ calls s' = calls s ++ [ImportConfig; ConfigInit edition; ImportStata]
        ∧ sys_path s' = path_added edition (path_added path (sys_path s))
        ∧ ∃ dl, log s' = log s ++ dl ∧ Forall quiet dl.
Proof.
  intros Hp Hed Hic Hin His.
  destruct (setup_stata_outcome env ext s path edition Hp Hed) as [Hres Hcalls].
  pose proof (setup_stata_sys_path env ext s) as Hpath.
  rewrite Hp, Hed in Hpath. rewrite Hic, Hin in Hres, Hcalls. rewrite His in Hres.
  pose proof (framed_run _ s (framed_setup_stata env ext)) as Hframe.
  destruct (setup_stata env ext s) as [r s'] eqn:Hrun. cbn in *. subst r.
  exists s'. split_and!; try done.
  destruct (setup_stata env ext (State (sys_path s) [] [])) as [r0 s0] eqn:Hrun0.
  unfold shift in Hframe. cbn in Hframe. simplify_eq.
  exists (log s0). split; [done|]. by eapply setup_stata_quiet.
Qed.

Lemma X6_setup_stata_success_witness :
  ∃ s', setup_stata env_ready (session (Ok no_rows)) fresh = (Ok PystataStata, s')
        ∧ calls s' = calls fresh ++ [ImportConfig; ConfigInit "mp"; ImportStata]
        ∧ sys_path s' = path_added "mp" (path_added "/opt/stata/utilities" (sys_path fresh))
        ∧ ∃ dl, log s' = log fresh ++ dl ∧ Forall quiet dl.
Proof.
  apply (X6_setup_stata_success env_ready (session (Ok no_rows)) fresh
           "/opt/stata/utilities" "mp"); reflexivity.
Defined.

(** X7: [setup_stata] only ever appends to [sys.path], and only names that
    are not yet in it: the old [sys.path] is a prefix of the new one, a
    [sys.path] without repetition stays so, and running [setup_stata]
    again leaves [sys.path] as the first run left it. *)
Theorem X7_sys_path_kept (env : environ) (ext : pystata) (s : state) :
  sys_path s `prefix_of` sys_path (setup_stata env ext s).2
  ∧ (NoDup (sys_path s) → NoDup (sys_path (setup_stata env ext s).2))
  ∧ sys_path (setup_stata env ext (setup_stata env ext s).2).2
    = sys_path (setup_stata env ext s).2.
Proof.
  rewrite (setup_stata_sys_path env ext (setup_stata env ext s).2).
  rewrite (setup_stata_sys_path env ext s).
  destruct (if_set (PYSTATA_PATH env)) as [path|]; [|done].
  destruct (if_set (STATA_EDITION env)) as [edition|].
  - split_and!.
    + etrans; apply path_added_prefix.
    + intros Hnd. by do 2 apply path_added_NoDup.
    + rewrite (path_added_id path) by apply path_added_subseteq, path_added_elem.
      by rewrite (path_added_id edition) by apply path_added_elem.
  - split_and!.
    + apply path_added_prefix.
    + apply path_added_NoDup.
    + by rewrite (path_added_id path) by apply path_added_elem.
Qed.

Lemma X7_sys_path_kept_witness :
  NoDup (sys_path (setup_stata env_ready (session (Ok no_rows)) fresh).2).
Proof.
  apply (X7_sys_path_kept env_ready (session (Ok no_rows)) fresh).
  apply NoDup_nil_2.
Defined.

(** X8: when the import of [pystata.config] raises [e], [setup_stata]
    raises a [DataLoaderError] from [e] and calls neither [init] nor the
    second import; the text is the import message (with the path and the
    text of [e]) when [e] is an [ImportError], the initialisation message
    otherwise. *)
Theorem X8_setup_import_failure (env : environ) (ext : pystata) (s : state)
    (path edition : string) (e : exn) :
  if_set (PYSTATA_PATH env) = Some path →
  if_set (STATA_EDITION env) = Some edition →
  import_config ext (path_added edition (path_added path (sys_path s))) = Err e →
  (setup_stata env ext s).1
  = Err (Raised DataLoaderError
           (if isinstance e ImportError then import_failed_text path e
            else init_failed_text e)
           (FromExn e))
  ∧ calls (setup_stata env ext s).2 = calls s ++ [ImportConfig].
Proof.
  intros Hp Hed Hic.
  destruct (setup_stata_outcome env ext s path edition Hp Hed) as [Hres Hcalls].
  by rewrite Hic in Hres, Hcalls.
Qed.

Lemma X8_setup_import_failure_witness :
  (setup_stata env_ready
     {| import_config := λ _, Err (Raised ModuleNotFoundError "No module named 'pystata'" NoCause);
        config_init := λ _, Ok (); import_stata := λ _, Ok ();
        pdataframe_from_data := λ _ _, Ok no_rows |} fresh).1
  = Err (Raised DataLoaderError
           (import_failed_text "/opt/stata/utilities"
              (Raised ModuleNotFoundError "No module named 'pystata'" NoCause))
           (FromExn (Raised ModuleNotFoundError "No module named 'pystata'" NoCause)))
  ∧ calls (setup_stata env_ready
             {| import_config := λ _, Err (Raised ModuleNotFoundError "No module named 'pystata'" NoCause);
                config_init := λ _, Ok (); import_stata := λ _, Ok ();
                pdataframe_from_data := λ _ _, Ok no_rows |} fresh).2
    = calls fresh ++ [ImportConfig].
Proof.
  apply (X8_setup_import_failure env_ready
           {| import_config := λ _, Err (Raised ModuleNotFoundError "No module named 'pystata'" NoCause);
              config_init := λ _, Ok (); import_stata := λ _, Ok ();
              pdataframe_from_data := λ _ _, Ok no_rows |} fresh
           "/opt/stata/utilities" "mp"
           (Raised ModuleNotFoundError "No module named 'pystata'" NoCause)); reflexivity.
Defined.

(** X9: when the import succeeds and [init] raises [e], [setup_stata]
    raises a [DataLoaderError] from [e] without importing [pystata.stata];
    the message is chosen by the class of [e], not by the step that
    failed. *)
Theorem X9_setup_init_failure (env : environ) (ext : pystata) (s : state)
    (path edition : string) (e : exn) :
  if_set (PYSTATA_PATH env) = Some path →
  if_set (STATA_EDITION env) = Some edition →
  import_config ext (path_added edition (path_added path (sys_path s))) = Ok () →
  config_init ext edition = Err e →
  (setup_stata env ext s).1
  = Err (Raised DataLoaderError
           (if isinstance e ImportError then import_failed_text path e
            else init_failed_text e)
           (FromExn e))
  ∧ calls (setup_stata env ext s).2 = calls s ++ [ImportConfig; ConfigInit edition].
Proof.
  intros Hp Hed Hic Hin.
  destruct (setup_stata_outcome env ext s path edition Hp Hed) as [Hres Hcalls].
  by rewrite Hic, Hin in Hres, Hcalls.
Qed.

Lemma X9_setup_init_failure_witness :
  (setup_stata env_ready
     {| import_config := λ _, Ok ();
        config_init := λ _, Err (Raised (OtherException "SystemError") "no licence" NoCause);
        import_stata := λ _, Ok ();
        pdataframe_from_data := λ _ _, Ok no_rows |} fresh).1
  = Err (Raised DataLoaderError
           (init_failed_text (Raised (OtherException "SystemError") "no licence" NoCause))
           (FromExn (Raised (OtherException "SystemError") "no licence" NoCause)))
  ∧ calls (setup_stata env_ready
             {| import_config := λ _, Ok ();
                config_init := λ _, Err (Raised (OtherException "SystemError") "no licence" NoCause);
                import_stata := λ _, Ok ();
                pdataframe_from_data := λ _ _, Ok no_rows |} fresh).2
    = calls fresh ++ [ImportConfig; ConfigInit "mp"].
Proof.
  apply (X9_setup_init_failure env_ready
           {| import_config := λ _, Ok ();
              config_init := λ _, Err (Raised (OtherException "SystemError") "no licence" NoCause);
              import_stata := λ _, Ok ();
              pdataframe_from_data := λ _ _, Ok no_rows |} fresh
           "/opt/stata/utilities" "mp"
           (Raised (OtherException "SystemError") "no licence" NoCause)); reflexivity.
Defined.

(* ===================================================================== *)
(** ** More of __init__.py: loading and the entry point *)
(* ===================================================================== *)

(** X10: a runtime path that is missing or the empty string stops
    [load_data] with the [DataLoaderError] for [PYSTATA_PATH], whatever the
    edition is; nothing is called and [sys.path] is left as it was. *)
Theorem X10_path_unset `{!Py.SetOrder} `{!Py.Repr} (env : environ) (ext : pystata)
    (m : ConfigModel) (valuelabel : bool) (s : state) :
  if_set (PYSTATA_PATH env) = None →
  ∃ s', load_data env ext m valuelabel s
        = (Err (Raised DataLoaderError
                  "PYSTATA_PATH environment variable not set. Cannot initialize pystata."
                  NoCause), s')
        ∧ calls s' = calls s ∧ sys_path s' = sys_path s.
Proof.
  intros Hp. eexists. split.
  - apply load_data_setup_error.
    unfold setup_stata, mbind, M_bind, logger, raise. rewrite Hp. reflexivity.
  - done.
Qed.

Lemma X10_path_unset_witness :
  ∃ s', load_data {| PYSTATA_PATH := Some ""; STATA_EDITION := Some "mp" |}
          (session (Ok no_rows)) blank_weight true fresh
        = (Err (Raised DataLoaderError
                  "PYSTATA_PATH environment variable not set. Cannot initialize pystata."
                  NoCause), s')
        ∧ calls s' = calls fresh ∧ sys_path s' = sys_path fresh.
Proof.
  apply (X10_path_unset {| PYSTATA_PATH := Some ""; STATA_EDITION := Some "mp" |}
           (session (Ok no_rows)) blank_weight true fresh).
  reflexivity.
Defined.

(** X11: with the path set, an edition that is missing or the empty string
    stops [load_data] with the [DataLoaderError] for [STATA_EDITION];
    nothing is called, but the path has by then been put on [sys.path]. *)
Theorem X11_edition_unset `{!Py.SetOrder} `{!Py.Repr} (env : environ) (ext : pystata)
    (m : ConfigModel) (valuelabel : bool) (s : state) (path : string) :
  if_set (PYSTATA_PATH env) = Some path →
  if_set (STATA_EDITION env) = None →
  ∃ s', load_data env ext m valuelabel s
        = (Err (Raised DataLoaderError
                  "STATA_EDITION environment variable not set. Cannot initialize pystata."
                  NoCause), s')
        ∧ calls s' = calls s ∧ sys_path s' = path_added path (sys_path s).
Proof.
  intros Hp Hed.
  destruct (setup_stata env ext (announced s)) as [r s1] eqn:Hsetup.
  assert (r = Err (Raised DataLoaderError
                     "STATA_EDITION environment variable not set. Cannot initialize pystata."
                     NoCause)
          ∧ calls s1 = calls s ∧ sys_path s1 = path_added path (sys_path s)) as (-> & Hc & Hsp).
  { revert Hsetup.
    unfold setup_stata, mbind, M_bind, logger, raise, get_sys_path, sys_path_append,
      path_added.
    rewrite Hp, Hed. cbn. case_bool_decide; cbn; by intros [= <- <-]. }
  exists s1. split; [by apply load_data_setup_error|done].
Qed.

Lemma X11_edition_unset_witness :
  ∃ s', load_data {| PYSTATA_PATH := Some "/opt/stata/utilities"; STATA_EDITION := Some "" |}
          (session (Ok no_rows)) blank_weight true fresh
        = (Err (Raised DataLoaderError
                  "STATA_EDITION environment variable not set. Cannot initialize pystata."
                  NoCause), s')
        ∧ calls s' = calls fresh
        ∧ sys_path s' = path_added "/opt/stata/utilities" (sys_path fresh).
Proof.
  apply (X11_edition_unset
           {| PYSTATA_PATH := Some "/opt/stata/utilities"; STATA_EDITION := Some "" |}
           (session (Ok no_rows)) blank_weight true fresh "/opt/stata/utilities");
    reflexivity.
Defined.

(** X12: after a successful set-up, a table with at least one row and one
    column is returned as the session gave it; the request is the last
    call, made with the caller's [valuelabel]; and nothing is logged at
    the level of a warning or above. *)
Theorem X12_table_returned `{!Py.SetOrder} `{!Py.Repr} (env : environ) (ext : pystata)
    (m : ConfigModel) (valuelabel : bool) (s : state) (df : DataFrame) :
  (setup_stata env ext s).1 = Ok PystataStata →
  pdataframe_from_data ext (Py.set_iter (required_vars m)) valuelabel = Ok df →
  rows df ≠ [] → columns df ≠ [] →
  ∃ s' dl,
    load_data env ext m valuelabel s = (Ok df, s')
    ∧ last (calls s') = Some (PdataframeFromData (Py.set_iter (required_vars m)) valuelabel)
    ∧ log s' = log s ++ dl ∧ Forall quiet dl.
Proof.
  intros Hok Hreq Hrows Hcols.
  destruct (setup_stata_announced env ext s _ Hok) as (s1 & dc & dl & Hsetup & Hc & _ & Hl & Hq).
  rewrite (load_data_request env ext m valuelabel s _ s1 Hsetup), Hreq.
  assert (empty df = false) as ->.
  { unfold empty. destruct (rows df), (columns df); done. }
  eexists _, _. split; [done|]. cbn. split_and!.
  - by rewrite last_snoc.
  - rewrite Hl, app_nil_r, <- !app_assoc. reflexivity.
  - apply Forall_app. split; [done|].
    repeat (apply Forall_cons; split; [by (left + right)|]). apply Forall_nil_2.
Qed.

Lemma X12_table_returned_witness :
  ∃ s' dl,
    load_data env_ready (session (Ok {| columns := ["a"]; rows := [[Number 1]] |}))
      blank_weight false fresh
    = (Ok {| columns := ["a"]; rows := [[Number 1]] |}, s')
    ∧ last (calls s')
      = Some (PdataframeFromData (Py.set_iter (required_vars blank_weight)) false)
    ∧ log s' = log fresh ++ dl ∧ Forall quiet dl.
Proof.
  apply (X12_table_returned env_ready
           (session (Ok {| columns := ["a"]; rows := [[Number 1]] |}))
           blank_weight false fresh {| columns := ["a"]; rows := [[Number 1]] |});
    try reflexivity; discriminate.
Defined.

(** X13: on a configuration that validates to [m], [stata_to_df] returns
    or raises exactly what [load_data] does on [m], with the same calls
    and the same [sys.path]; when [load_data] returns, the two runs are
    equal altogether. *)
Theorem X13_entry_delegates `{!Py.SetOrder} `{!Py.Repr} (env : environ) (ext : pystata)
    (raw : gmap string value) (m : ConfigModel) (valuelabel : bool) (s : state) :
  validate_config raw = Ok m →
  (stata_to_df env ext raw valuelabel s).1 = (load_data env ext m valuelabel s).1
  ∧ calls (stata_to_df env ext raw valuelabel s).2 = calls (load_data env ext m valuelabel s).2
  ∧ sys_path (stata_to_df env ext raw valuelabel s).2
    = sys_path (load_data env ext m valuelabel s).2
  ∧ (∀ df, (load_data env ext m valuelabel s).1 = Ok df →
           stata_to_df env ext raw valuelabel s = load_data env ext m valuelabel s).
Proof.
  intros Hval. pose proof (stata_to_df_body env ext raw m valuelabel s Hval) as Hbody.
  unfold stata_to_df.
  destruct (load_data env ext m valuelabel s) as [[df|e] s1] eqn:Hload.
  - rewrite (entry_guard_returns _ _ _ _ Hbody). done.
  - destruct (entry_guard_reraises _ _ _ _ Hbody) as [text ->]. done.
Qed.

Lemma X13_entry_delegates_witness :
  (stata_to_df env_ready (session (Ok no_rows)) (cfg_raw ["a"] ["b"] "v") true fresh).1
  = (load_data env_ready (session (Ok no_rows))
       {| row_var := ["a"]; col_var := ["b"]; value_var := "v";
          pweight := None; secondary_ref := None |} true fresh).1.
Proof.
  apply (X13_entry_delegates env_ready (session (Ok no_rows)) (cfg_raw ["a"] ["b"] "v")
           {| row_var := ["a"]; col_var := ["b"]; value_var := "v";
              pweight := None; secondary_ref := None |} true fresh).
  vm_compute. reflexivity.
Defined.

(** X14: whatever [stata_to_df] raises is a [ConfigValidationError] or a
    [DataLoaderError]: no exception of pydantic or of pystata leaves the
    entry point with its own class. *)
Theorem X14_only_package_errors `{!Py.SetOrder} `{!Py.Repr} (env : environ) (ext : pystata)
    (raw : gmap string value) (valuelabel : bool) (s : state) (e : exn) :
  (stata_to_df env ext raw valuelabel s).1 = Err e →
  exn_cls e = ConfigValidationError ∨ exn_cls e = DataLoaderError.
Proof. apply stata_to_df_raises. Qed.

Lemma X14_only_package_errors_witness :
  exn_cls (Raised DataLoaderError
             (request_error_text ["a"; "v"; "b"]
                (Raised (OtherException "SystemError") "variable v not found" NoCause))
             (FromExn (Raised (OtherException "SystemError") "variable v not found" NoCause)))
  = ConfigValidationError
  ∨ exn_cls (Raised DataLoaderError
               (request_error_text ["a"; "v"; "b"]
                  (Raised (OtherException "SystemError") "variable v not found" NoCause))
               (FromExn (Raised (OtherException "SystemError") "variable v not found" NoCause)))
    = DataLoaderError.
Proof.
  apply (X14_only_package_errors env_ready
           (session (Err (Raised (OtherException "SystemError") "variable v not found" NoCause)))
           (cfg_raw ["a"] ["b"] "v") true fresh).
  vm_compute. reflexivity.
Defined.

(** X16: when the configuration validates, the set-up succeeds and the
    request raises an exception [e] that is no [DataLoaderError],
    [stata_to_df] raises the wrapping [DataLoaderError] and the failure is
    logged twice at [ERROR]: by [load_data] with the message, then by the
    entry point with the message behind its own prefix. *)
Theorem X16_failed_request_logged_twice `{!Py.SetOrder} `{!Py.Repr} (env : environ) (ext : pystata)
    (raw : gmap string value) (m : ConfigModel) (valuelabel : bool) (s : state) (e : exn) :
  validate_config raw = Ok m →
  (setup_stata env ext s).1 = Ok PystataStata →
  pdataframe_from_data ext (Py.set_iter (required_vars m)) valuelabel = Err e →
  isinstance e DataLoaderError = false →
  let msg := request_error_text (Py.set_iter (required_vars m)) e in
  ∃ s' l0,
    stata_to_df env ext raw valuelabel s = (Err (Raised DataLoaderError msg (FromExn e)), s')
    ∧ log s' = l0 ++ [LogRecord ERROR msg;
                      LogRecord ERROR ("Error in configuration or data loading: " +:+ msg)].
Proof.
  intros Hval Hok Hreq Hcls msg.
  destruct (setup_stata_announced env ext s _ Hok) as (s1 & dc & dl & Hsetup & _).
  pose proof (stata_to_df_body env ext raw m valuelabel s Hval) as Hbody.
  rewrite (load_data_request env ext m valuelabel s _ s1 Hsetup), Hreq, Hcls in Hbody.
  unfold stata_to_df. rewrite (entry_guard_taxonomy _ _ _ _ Hbody eq_refl).
  eexists _, _. split; [reflexivity|]. cbn. rewrite <- app_assoc. reflexivity.
Qed.

Lemma X16_failed_request_logged_twice_witness :
  ∃ s' l0,
    stata_to_df env_ready
      (session (Err (Raised (OtherException "SystemError") "variable v not found" NoCause)))
      (cfg_raw ["a"] ["b"] "v") true fresh
    = (Err (Raised DataLoaderError
              (request_error_text
                 (Py.set_iter (required_vars
                                 {| row_var := ["a"]; col_var := ["b"]; value_var := "v";
                                    pweight := None; secondary_ref := None |}))
                 (Raised (OtherException "SystemError") "variable v not found" NoCause))
              (FromExn (Raised (OtherException "SystemError") "variable v not found" NoCause))),
       s')
    ∧ log s'
      = l0 ++ [LogRecord ERROR
                 (request_error_text
                    (Py.set_iter (required_vars
                                    {| row_var := ["a"]; col_var := ["b"]; value_var := "v";
                                       pweight := None; secondary_ref := None |}))
                    (Raised (OtherException "SystemError") "variable v not found" NoCause));
               LogRecord ERROR
                 ("Error in configuration or data loading: " +:+
                  request_error_text
                    (Py.set_iter (required_vars
                                    {| row_var := ["a"]; col_var := ["b"]; value_var := "v";
                                       pweight := None; secondary_ref := None |}))
                    (Raised (OtherException "SystemError") "variable v not found" NoCause))].
Proof.
  apply (X16_failed_request_logged_twice env_ready
           (session (Err (Raised (OtherException "SystemError") "variable v not found" NoCause)))
           (cfg_raw ["a"] ["b"] "v")
           {| row_var := ["a"]; col_var := ["b"]; value_var := "v";
              pweight := None; secondary_ref := None |} true fresh
           (Raised (OtherException "SystemError") "variable v not found" NoCause));
    try reflexivity; vm_compute; reflexivity.
Defined.

(** X17: on a configuration that does not validate, [stata_to_df] raises
    the error of [validate_config] and leaves the process as it was but
    for one [ERROR] record, the message behind the prefix of the entry
    point; [load_data] is not entered. *)
Theorem X17_invalid_leaves_process `{!Py.SetOrder} `{!Py.Repr} (env : environ) (ext : pystata)
    (raw : gmap string value) (valuelabel : bool) (s : state) (e : exn) :
  validate_config raw = Err e →
  stata_to_df env ext raw valuelabel s
  = (Err e, State (sys_path s) (calls s)
              (log s ++ [LogRecord ERROR
                           ("Error in configuration or data loading: " +:+ exn_text e)])).
Proof.
  intros Hval. unfold stata_to_df. apply entry_guard_taxonomy.
  - unfold mbind, M_bind, pure_call. by rewrite Hval.
  - unfold isinstance. by rewrite (validate_config_raises raw e Hval).
Qed.

Lemma X17_invalid_leaves_process_witness :
  ∃ e, validate_config (cfg_raw ["x"; "x"] ["y"] "v") = Err e
       ∧ stata_to_df env_ready (session (Ok no_rows)) (cfg_raw ["x"; "x"] ["y"] "v") true fresh
         = (Err e, State (sys_path fresh) (calls fresh)
                     (log fresh ++ [LogRecord ERROR
                                      ("Error in configuration or data loading: "
                                       +:+ exn_text e)])).
Proof.
  eexists. split; [vm_compute; reflexivity|].
  apply (X17_invalid_leaves_process env_ready (session (Ok no_rows))
           (cfg_raw ["x"; "x"] ["y"] "v") true fresh).
  vm_compute. reflexivity.
Defined.

(** X18: when the configuration validates to [m], the set-up succeeds and
    the session answers the request with a table, [stata_to_df] returns
    that very table, after one request for the required variables of
    [m]. *)
Theorem X18_table_passed_through `{!Py.SetOrder} `{!Py.Repr} (env : environ) (ext : pystata)
    (raw : gmap string value) (m : ConfigModel) (valuelabel : bool) (s : state)
    (df : DataFrame) :
  validate_config raw = Ok m →
  (setup_stata env ext s).1 = Ok PystataStata →
  pdataframe_from_data ext (Py.set_iter (required_vars m)) valuelabel = Ok df →
  ∃ s', stata_to_df env ext raw valuelabel s = (Ok df, s')
        ∧ requested (calls s') = requested (calls s) ++ [Py.set_iter (required_vars m)].
Proof.
  intros Hval Hok Hreq.
  pose proof (load_data_requested env ext m valuelabel s) as Hasked. rewrite Hok in Hasked.
  destruct (setup_stata_announced env ext s _ Hok) as (s1 & dc & dl & Hsetup & _).
  pose proof (stata_to_df_body env ext raw m valuelabel s Hval) as Hbody.
  rewrite (load_data_request env ext m valuelabel s _ s1 Hsetup), Hreq in Hbody, Hasked.
  unfold stata_to_df. rewrite (entry_guard_returns _ _ _ _ Hbody).
  eexists. split; [reflexivity|]. exact Hasked.
Qed.

Lemma X18_table_passed_through_witness :
  ∃ s', stata_to_df env_ready (session (Ok {| columns := ["a"]; rows := [[Number 1]] |}))
          (cfg_raw ["a"] ["b"] "v") true fresh
        = (Ok {| columns := ["a"]; rows := [[Number 1]] |}, s')
        ∧ requested (calls s')
          = requested (calls fresh)
            ++ [Py.set_iter (required_vars
                               {| row_var := ["a"]; col_var := ["b"]; value_var := "v";
                                  pweight := None; secondary_ref := None |})].
Proof.
  apply (X18_table_passed_through env_ready
           (session (Ok {| columns := ["a"]; rows := [[Number 1]] |}))
           (cfg_raw ["a"] ["b"] "v")
           {| row_var := ["a"]; col_var := ["b"]; value_var := "v";
              pweight := None; secondary_ref := None |} true fresh
           {| columns := ["a"]; rows := [[Number 1]] |});
    try reflexivity; vm_compute; reflexivity.
Defined.



(* ===================================================================== *)
(** ** The message of a failed validation, letter by letter *)
(* ===================================================================== *)

Section Lines.
Context `{!Py.SetOrder} `{!Py.Repr}.













End Lines.



Example violation_lines_four :
  violation_lines {[ "row_var" := VList []; "pweight" := VInt 3 ]}
  = ["- ('col_var',): Field required";
     "- ('value_var',): Field required";
     "- ('pweight',): Input should be a valid string";
     "- ('row_var',): List should have at least 1 item after validation, not 0"].
Proof. vm_compute. reflexivity. Qed.

(* ===================================================================== *)
(** ** The errors that leave the entry point *)
(* ===================================================================== *)

Section EntryErrors.
Context `{!Py.SetOrder} `{!Py.Repr} (env : environ) (ext : pystata).



End EntryErrors.


